(** * chigasaki-gourmet-agent: the MCP server's tool dispatch and
      Places search handler (server.py), embedded and verified.

    The embedding follows server.py statement by statement.  Python
    values are the JSON data model the handler receives (tool arguments)
    and decodes (the Places API body); the one outbound HTTP call is an
    explicit interaction point, so that "no call is attempted" and "the
    query that is sent" are properties of the handler itself. *)

From Stdlib Require Import ZArith QArith Bool List String Ascii Lia.
From Stdlib Require Import DecimalString.
Import ListNotations.

Local Open Scope string_scope.
Local Open Scope Z_scope.

(** ** Python values *)

Module Py.

(** A Python float.  A finite binary64 value is kept as the rational
    number it denotes: the handler only compares and tests floats, it
    never computes with them, and both operations are exact. *)
Inductive pyfloat :=
| FNaN
| FNegInf
| FPosInf
| FFin (q : Q).

(** The values [json.loads] can build; dict keys are always [str].
    A [str] is held as its UTF-8 bytes: substring tests and ordering
    on the bytes agree with those on code points. *)
#[warnings="-register-all"]
Inductive value :=
| VNone
| VBool (b : bool)
| VInt (z : Z)
| VFloat (f : pyfloat)
| VStr (s : string)
| VList (l : list value)
| VDict (d : list (string * value)).

Definition dict := list (string * value).

(** [d.get(key)]: the entry stored under [key], if any. *)
Fixpoint lookup (key : string) (d : dict) : option value :=
  match d with
  | [] => None
  | (k, v) :: d' => if String.eqb k key then Some v else lookup key d'
  end.

(** [d.get(key, default)] *)
Definition get (d : dict) (key : string) (default : value) : value :=
  match lookup key d with
  | Some v => v
  | None => default
  end.

(** [key in d] *)
Definition has_key (key : string) (d : dict) : bool :=
  match lookup key d with
  | Some _ => true
  | None => false
  end.

(** [bool(v)], as used by [not v] and [if v]. *)
Definition truthy (v : value) : bool :=
  match v with
  | VNone => false
  | VBool b => b
  | VInt z => negb (z =? 0)
  | VFloat (FFin q) => negb (Qeq_bool q 0)
  | VFloat _ => true
  | VStr s => negb (String.eqb s "")
  | VList l => match l with [] => false | _ => true end
  | VDict d => match d with [] => false | _ => true end
  end.

(** [isinstance(v, dict)] *)
Definition is_dict (v : value) : bool :=
  match v with
  | VDict _ => true
  | _ => false
  end.

(** [needle in hay] on two [str]: [needle] occurs as a substring. *)
Fixpoint contains (needle hay : string) : bool :=
  String.prefix needle hay ||
  match hay with
  | EmptyString => false
  | String _ hay' => contains needle hay'
  end.

(** The numeric tower: [bool] is a subclass of [int], and an [int]
    compares with a [float] by value. *)
Definition as_number (v : value) : option pyfloat :=
  match v with
  | VBool b => Some (FFin (inject_Z (if b then 1 else 0)))
  | VInt z => Some (FFin (inject_Z z))
  | VFloat f => Some f
  | _ => None
  end.

Definition float_eqb (a b : pyfloat) : bool :=
  match a, b with
  | FNaN, _ | _, FNaN => false
  | FNegInf, FNegInf => true
  | FPosInf, FPosInf => true
  | FFin p, FFin q => Qeq_bool p q
  | _, _ => false
  end.

(** [a >= b] on numbers; every comparison with NaN is false. *)
Definition float_geb (a b : pyfloat) : bool :=
  match a, b with
  | FNaN, _ | _, FNaN => false
  | _, FNegInf => true
  | FPosInf, _ => true
  | FFin p, FFin q => Qle_bool q p
  | _, _ => false
  end.

(** [a == b]; never raises on these values. *)
Fixpoint eqb (a b : value) {struct a} : bool :=
  let fix list_eqb (l m : list value) {struct l} : bool :=
    match l, m with
    | [], [] => true
    | x :: l', y :: m' => eqb x y && list_eqb l' m'
    | _, _ => false
    end in
  let fix sub_dict (d e : dict) {struct d} : bool :=
    match d with
    | [] => true
    | (k, v) :: d' =>
        match lookup k e with
        | Some w => eqb v w
        | None => false
        end && sub_dict d' e
    end in
  match a, b with
  | VNone, VNone => true
  | VStr s, VStr t => String.eqb s t
  | VList l, VList m => list_eqb l m
  | VDict d, VDict e => Nat.eqb (List.length d) (List.length e) && sub_dict d e
  | _, _ =>
      match as_number a, as_number b with
      | Some x, Some y => float_eqb x y
      | _, _ => false
      end
  end.

(** Exceptions.  All of them derive from [Exception].  The first three
    carry the text the program or the HTTP client gives them; the
    others are raised by the interpreter on ill-typed data, and record
    the operands. *)
Inductive exn :=
| ValueError (msg : string)
| HTTPStatusError (status_code : Z) (text : string)
| OtherException (msg : string)
| TypeError_not_ordered (a b : value)
| TypeError_not_container (v : value)
| TypeError_not_iterable (v : value)
| TypeError_bad_index (v : value)
| AttributeError_get (v : value)
| KeyError (key : string).

(** An evaluation either returns or raises. *)
Inductive result (A : Type) :=
| Return (a : A)
| Raise (e : exn).
Arguments Return {A} a.
Arguments Raise {A} e.

Definition bind {A B} (r : result A) (k : A -> result B) : result B :=
  match r with
  | Return a => k a
  | Raise e => Raise e
  end.

Notation "x <- r ;; k" := (bind r (fun x => k))
  (at level 61, r at next level, right associativity).

(** [a >= b].  Numbers compare by value, [str] by code points, lists
    at the first pair of items that are not equal (by length when there
    is none); any other pair of operands is a [TypeError]. *)
Fixpoint ge (a b : value) {struct a} : result bool :=
  let fix list_ge (l m : list value) {struct l} : result bool :=
    match l, m with
    | x :: l', y :: m' => if eqb x y then list_ge l' m' else ge x y
    | [], _ :: _ => Return false
    | _, [] => Return true
    end in
  match a, b with
  | VStr s, VStr t => Return (String.leb t s)
  | VList l, VList m => list_ge l m
  | _, _ =>
      match as_number a, as_number b with
      | Some x, Some y => Return (float_geb x y)
      | _, _ => Raise (TypeError_not_ordered a b)
      end
  end.

(** ["..." in v] for a [str] on the left. *)
Definition str_in (needle : string) (v : value) : result bool :=
  match v with
  | VStr s => Return (contains needle s)
  | VList l => Return (existsb (eqb (VStr needle)) l)
  | VDict d => Return (has_key needle d)
  | _ => Raise (TypeError_not_container v)
  end.

(** [v["..."]] *)
Definition getitem (v : value) (key : string) : result value :=
  match v with
  | VDict d =>
      match lookup key d with
      | Some x => Return x
      | None => Raise (KeyError key)
      end
  | _ => Raise (TypeError_bad_index v)
  end.

(** A byte [10xxxxxx] continues a UTF-8 sequence. *)
Definition is_continuation (c : ascii) : bool :=
  let n := N_of_ascii c in
  (128 <=? n)%N && (n <? 192)%N.

(** Does [s] start in the middle of a code point? *)
Definition continues (s : string) : bool :=
  match s with
  | EmptyString => false
  | String c _ => is_continuation c
  end.

(** The characters of a [str], one string per code point. *)
Fixpoint chars (s : string) : list string :=
  match s with
  | EmptyString => []
  | String c s' =>
      match chars s' with
      | h :: t =>
          if continues s' then String c h :: t
          else String c EmptyString :: h :: t
      | [] => [String c EmptyString]
      end
  end.

(** The items [for x in v] visits. *)
Definition iterate (v : value) : result (list value) :=
  match v with
  | VList l => Return l
  | VStr s => Return (map VStr (chars s))
  | VDict d => Return (map (fun kv => VStr (fst kv)) d)
  | _ => Raise (TypeError_not_iterable v)
  end.

(** [v.get(key, default)]: only a dict has the method. *)
Definition call_get (v : value) (key : string) (default : value)
  : result value :=
  match v with
  | VDict d => Return (get d key default)
  | _ => Raise (AttributeError_get v)
  end.

(** [str(n)] for an [int]. *)
Definition str_of_int (n : Z) : string :=
  NilZero.string_of_int (Z.to_int n).

End Py.

(** ** The protocol's data and the HTTP client's interface *)

Module Mcp.
Import Py.

(** The text of a content item is always the output of [json.dumps];
    it is kept as the call that produced it, since [json.dumps] is
    total on JSON values and [json.loads] gives the document back. *)
Inductive json_text :=
| json_dumps (obj : value) (ensure_ascii : bool) (indent : option Z).

(** [mcp.types.TextContent] *)
Record TextContent := mkTextContent {
  type : string;
  text : json_text
}.

(** [mcp.types.Tool] *)
Record Tool := mkTool {
  name : string;
  description : string;
  inputSchema : value
}.

(** The arguments of [client.post]. *)
Record request := mkRequest {
  url : string;
  headers : list (string * string);
  json : value;
  timeout : Q
}.

(** What the handler reads of an [httpx.Response]: the status, the body
    text, and what [response.json()] does (the decoded body, or the
    decoder's exception on a malformed one). *)
Record response := mkResponse {
  status_code : Z;
  body_text : string;
  body_json : result value
}.

(** [response.raise_for_status()]: an [HTTPStatusError] unless the
    status is 2xx. *)
Definition raise_for_status (r : response) : result unit :=
  if (200 <=? status_code r) && (status_code r <=? 299) then Return tt
  else Raise (HTTPStatusError (status_code r) (body_text r)).

(** A coroutine with at most one suspension on the HTTP client: it is
    done, or it awaits [client.post(...)] and continues with what the
    call returns or raises. *)
Inductive action :=
| Done (r : result (list TextContent))
| Await_post (req : request)
    (k : result response -> result (list TextContent)).

(** Running a coroutine against an HTTP client: the requests made, and
    the coroutine's result. *)
Definition run (post : request -> result response) (a : action)
  : list request * result (list TextContent) :=
  match a with
  | Done r => ([], r)
  | Await_post req k => ([req], k (post req))
  end.

End Mcp.

(** ** server.py *)

Module Server.
Import Py Mcp.

Section Handlers.

(** The interpreter's renderings that the embedding leaves open:
    [str(v)] of a value that is not a [str] (float formatting, list and
    dict display), and [str(e)] of an exception the interpreter or the
    HTTP client built itself. *)
Variable repr : value -> string.
Variable builtin_text : exn -> string.

(** [str(v)], also what an f-string field [{v}] inserts. *)
Definition str (v : value) : string :=
  match v with
  | VStr s => s
  | _ => repr v
  end.

(** [str(e)] *)
Definition str_exn (e : exn) : string :=
  match e with
  | ValueError msg => msg
  | OtherException msg => msg
  | _ => builtin_text e
  end.

(** [os.getenv(key)] on the process environment. *)
Definition getenv (environ : string -> option string) (key : string)
  : option string :=
  environ key.

(** The module-level [MAPS_API_KEY = None]: the state the server
    starts in, whatever the environment holds. *)
Definition MAPS_API_KEY_at_startup : option string := None.

Definition search_places_schema : value :=
  VDict [
    ("type", VStr "object");
    ("properties", VDict [
      ("query", VDict [
        ("type", VStr "string");
        ("description", VStr "検索クエリ（例: '茅ヶ崎 ランチ', 'Delicious lunch spots in Chigasaki City'）")]);
      ("min_rating", VDict [
        ("type", VStr "number");
        ("description", VStr "最小評価（デフォルト: 4.0）");
        ("default", VFloat (FFin (4 # 1)))])]);
    ("required", VList [VStr "query"])].

(** [list_tools()] *)
Definition list_tools : list Tool :=
  [mkTool "search_places"
     ("茅ヶ崎市内のレストランやグルメスポットを検索します。" ++
      "Google Maps Places APIのテキスト検索を使用して、" ++
      "指定されたクエリに一致する場所を検索します。" ++
      "評価が4.0以上の場所のみを返します。")
     search_places_schema].

(** [[TextContent(type="text",
        text=json.dumps({"error": error_message}, ensure_ascii=False))]] *)
Definition error_content (error_message : string) : list TextContent :=
  [mkTextContent "text"
     (json_dumps (VDict [("error", VStr error_message)]) false None)].

Definition missing_key_message : string :=
  "MAPS_API_KEY環境変数が設定されていません。.envファイルを確認してください。".

Definition missing_query_message : string :=
  "検索クエリが指定されていません。".

(** Lines 135-137: the query sent to the API. *)
Definition search_query_of (query : value) : result value :=
  has_ja <- str_in "茅ヶ崎" query ;;
  if negb has_ja then
    has_en <- str_in "Chigasaki" query ;;
    if negb has_en then Return (VStr ("茅ヶ崎 " ++ str query))
    else Return query
  else Return query.

Definition places_url : string :=
  "https://places.googleapis.com/v1/places:searchText".

Definition field_mask : string :=
  "places.id,places.displayName,places.rating,places.userRatingCount,places.formattedAddress,places.types,places.location".

(** Lines 141-153: the arguments of [client.post]. *)
Definition post_request (key : string) (search_query : value) : request :=
  mkRequest places_url
    [("Content-Type", "application/json");
     ("X-Goog-Api-Key", key);
     ("X-Goog-FieldMask", field_mask)]
    (VDict [("textQuery", search_query); ("languageCode", VStr "ja")])
    (30 # 1).

(** Lines 165-179: the record built for a place that passed the filter. *)
Definition place_info (place rating : value) : result value :=
  display_name <- call_get place "displayName" (VDict []) ;;
  name <- (if is_dict display_name
           then call_get display_name "text" (VStr "不明")
           else Return (VStr (str display_name))) ;;
  formatted_address <- call_get place "formattedAddress" (VStr "住所不明") ;;
  location <- call_get place "location" (VDict []) ;;
  user_ratings_total <- call_get place "userRatingCount" (VInt 0) ;;
  place_id <- call_get place "id" (VStr "") ;;
  types <- call_get place "types" (VList []) ;;
  Return (VDict [
    ("name", name);
    ("rating", rating);
    ("user_ratings_total", user_ratings_total);
    ("address", formatted_address);
    ("place_id", place_id);
    ("types", types);
    ("geometry", if truthy location
                 then VDict [("location", location)]
                 else VDict [])]).

(** Lines 160-180: the loop over the API's places; [places] is the list
    appended to so far. *)
Fixpoint collect_places (min_rating : value) (todo places : list value)
  : result (list value) :=
  match todo with
  | [] => Return places
  | place :: todo' =>
      rating <- call_get place "rating" (VInt 0) ;;
      keep <- ge rating min_rating ;;
      if keep then
        info <- place_info place rating ;;
        collect_places min_rating todo' (places ++ [info])
      else collect_places min_rating todo' places
  end.

(** Lines 183-194: the success payload. *)
Definition success_content (query min_rating : value) (places : list value)
  : list TextContent :=
  [mkTextContent "text"
     (json_dumps
        (VDict [
          ("query", query);
          ("min_rating", min_rating);
          ("count", VInt (Z.of_nat (List.length places)));
          ("places", VList places)])
        false (Some 2))].

(** Lines 158-180: [places], from the decoded body. *)
Definition extract_places (min_rating places_result : value)
  : result (list value) :=
  present <- str_in "places" places_result ;;
  if present then
    raw <- getitem places_result "places" ;;
    todo <- iterate raw ;;
    collect_places min_rating todo []
  else Return [].

(** Lines 153-194: the body of the [try] from the point where
    [client.post] has returned or raised. *)
Definition process_response (query min_rating : value)
    (posted : result response) : result (list TextContent) :=
  response <- posted ;;
  _ <- raise_for_status response ;;
  places_result <- body_json response ;;
  places <- extract_places min_rating places_result ;;
  Return (success_content query min_rating places).

(** Lines 196-203: the two [except] clauses around the [try]. *)
Definition except_clauses (r : result (list TextContent))
  : result (list TextContent) :=
  match r with
  | Return content => Return content
  | Raise (HTTPStatusError status_code text) =>
      Return (error_content
                ("API呼び出しエラー (ステータス " ++ str_of_int status_code
                 ++ "): " ++ text))
  | Raise e =>
      Return (error_content ("検索中にエラーが発生しました: " ++ str_exn e))
  end.

(** Lines 125-203: the handler once a key is in the slot. *)
Definition search (key : string) (arguments : dict) : action :=
  let query := get arguments "query" (VStr "") in
  let min_rating := get arguments "min_rating" (VFloat (FFin (4 # 1))) in
  if negb (truthy query) then Done (Raise (ValueError missing_query_message))
  else
    match search_query_of query with
    | Raise e => Done (except_clauses (Raise e))
    | Return search_query =>
        Await_post (post_request key search_query)
          (fun posted =>
             except_clauses (process_response query min_rating posted))
    end.

(** [handle_search_places(arguments)], from the value of the global
    [MAPS_API_KEY] on entry to its value on exit and what the coroutine
    does. *)
Definition handle_search_places (MAPS_API_KEY : option string)
    (environ : string -> option string) (arguments : dict)
  : option string * action :=
  match MAPS_API_KEY with
  | None =>
      let MAPS_API_KEY := getenv environ "MAPS_API_KEY" in
      match MAPS_API_KEY with
      | None => (MAPS_API_KEY, Done (Return (error_content missing_key_message)))
      | Some key =>
          if String.eqb key ""
          then (MAPS_API_KEY, Done (Return (error_content missing_key_message)))
          else (MAPS_API_KEY, search key arguments)
      end
  | Some key => (MAPS_API_KEY, search key arguments)
  end.

(** [call_tool(name, arguments)] *)
Definition call_tool (MAPS_API_KEY : option string)
    (environ : string -> option string) (name : string) (arguments : dict)
  : option string * action :=
  if String.eqb name "search_places"
  then handle_search_places MAPS_API_KEY environ arguments
  else (MAPS_API_KEY, Done (Raise (ValueError ("未知のツール: " ++ name)))).

End Handlers.
End Server.

(** ** client.py: the tool invocation *)

Module Client.
Import Py.

(** Lines 93-100: the arguments of
    [session.call_tool("search_places", arguments=...)]; [min_rating]
    is the float argparse read. *)
Definition tool_arguments (location query : string) (min_rating : pyfloat)
  : dict :=
  [("location", VStr location);
   ("query", VStr query);
   ("min_rating", VFloat min_rating)].

End Client.

(** ** The specification's vocabulary *)

Module Spec.
Import Py Mcp.

(** [sub] occurs in [s]. *)
Definition occurs (sub s : string) : Prop :=
  exists before after, s = before ++ sub ++ after.

(** The query mentions the locality by one of the accepted spellings. *)
Definition mentions_locality (query : string) : Prop :=
  occurs "茅ヶ崎" query \/ occurs "Chigasaki" query.

(** The environment holds no usable credential. *)
Definition credential_absent (environ : string -> option string) : Prop :=
  match environ "MAPS_API_KEY" with
  | None => True
  | Some key => key = ""
  end.

(** A credential is available to an invocation: one is cached, or the
    environment holds a non-empty one. *)
Definition credential_available (MAPS_API_KEY : option string)
    (environ : string -> option string) (key : string) : Prop :=
  MAPS_API_KEY = Some key \/
  (MAPS_API_KEY = None /\ environ "MAPS_API_KEY" = Some key /\ key <> "").

(** A ToolInvocationResult with exactly one text content item, and the
    SearchOutcome document that item serialises. *)
Definition outcome_of (content : list TextContent) : option value :=
  match content with
  | [c] => if String.eqb (type c) "text"
           then match text c with json_dumps obj _ _ => Some obj end
           else None
  | _ => None
  end.

(** The error variant: [{error: message}]. *)
Definition error_variant (o : value) (message : string) : Prop :=
  o = VDict [("error", VStr message)].

(** The success variant: a document without an [error] entry (the
    client's test). *)
Definition success_variant (o : value) : Prop :=
  match o with
  | VDict d => lookup "error" d = None
  | _ => False
  end.

(** Two numbers are equal / the first is below the second, on the
    extended rationals; NaN is neither equal to nor below anything. *)
Definition float_eq (a b : pyfloat) : Prop :=
  match a, b with
  | FNegInf, FNegInf => True
  | FPosInf, FPosInf => True
  | FFin p, FFin q => (p == q)%Q
  | _, _ => False
  end.

Definition float_lt (a b : pyfloat) : Prop :=
  match a, b with
  | FNegInf, FFin _ => True
  | FNegInf, FPosInf => True
  | FFin _, FPosInf => True
  | FFin p, FFin q => (p < q)%Q
  | _, _ => False
  end.

(** The places list of a success document. *)
Definition places_of (o : value) : option (list value) :=
  match o with
  | VDict d =>
      match lookup "places" d with
      | Some (VList places) => Some places
      | _ => None
      end
  | _ => None
  end.

(** The rating of a raw place, 0 when it has none. *)
Definition rating (place : dict) : value :=
  match lookup "rating" place with
  | Some r => r
  | None => VInt 0
  end.

(** The rating filter: [rating >= min_rating] holds. *)
Definition passes (min_rating : value) (place : dict) : bool :=
  match ge (rating place) min_rating with
  | Return true => true
  | _ => false
  end.

(** The entry of a document under a key. *)
Definition field (o : value) (key : string) : option value :=
  match o with
  | VDict d => lookup key d
  | _ => None
  end.

Section Reshape.
Variable repr : value -> string.

(** The display name of a raw place: the text of its [displayName],
    the "unknown" sentinel when that is absent; a [displayName] that is
    not an object stands for itself. *)
Definition name_of (place : dict) : value :=
  match lookup "displayName" place with
  | None => VStr "不明"
  | Some (VDict display_name) =>
      match lookup "text" display_name with
      | Some t => t
      | None => VStr "不明"
      end
  | Some (VStr s) => VStr s
  | Some other => VStr (repr other)
  end.

Definition entry_or (place : dict) (key : string) (fallback : value) : value :=
  match lookup key place with
  | Some v => v
  | None => fallback
  end.

(** The coordinates of a record: the place's location, and nothing at
    all when the place has none (or an empty one). *)
Definition coordinates_of (place : dict) : dict :=
  match lookup "location" place with
  | None => []
  | Some location => if truthy location then [("location", location)] else []
  end.

(** The PlaceRecord a raw place is reshaped into. *)
Definition record_of (place : dict) : value :=
  VDict [
    ("name", name_of place);
    ("rating", rating place);
    ("user_ratings_total", entry_or place "userRatingCount" (VInt 0));
    ("address", entry_or place "formattedAddress" (VStr "住所不明"));
    ("place_id", entry_or place "id" (VStr ""));
    ("types", entry_or place "types" (VList []));
    ("geometry", VDict (coordinates_of place))].

End Reshape.
End Spec.

(** ** A stubbed Places API, for concrete runs *)

Module Scenario.
Import Py Mcp Server.

Definition repr (_ : value) : string := "<repr>".
Definition builtin_text (_ : exn) : string := "<builtin>".

Definition environ_with_key (key : string) : option string :=
  if String.eqb key "MAPS_API_KEY" then Some "test-key" else None.

Definition environ_without_key (_ : string) : option string := None.

(** What the client sends for [-q ramen] in the default locality. *)
Definition arguments : dict :=
  Client.tool_arguments "茅ヶ崎市" "ramen" (FFin (4 # 1)).

(** The same search with another locality argument. *)
Definition arguments_elsewhere : dict :=
  Client.tool_arguments "藤沢市" "ramen" (FFin (4 # 1)).

(** What the client sends for an empty [-q]. *)
Definition arguments_empty_query : dict :=
  Client.tool_arguments "茅ヶ崎市" "" (FFin (4 # 1)).

(** Two places, rated 4.2 and 3.9; the first has no location. *)
Definition place_42 : dict :=
  [("id", VStr "p42");
   ("displayName", VDict [("text", VStr "麺屋")]);
   ("rating", VFloat (FFin (42 # 10)));
   ("userRatingCount", VInt 120);
   ("formattedAddress", VStr "茅ヶ崎市元町1-1");
   ("types", VList [VStr "restaurant"])].

Definition place_39 : dict :=
  [("id", VStr "p39");
   ("displayName", VDict [("text", VStr "食堂")]);
   ("rating", VFloat (FFin (39 # 10)));
   ("location", VDict [("latitude", VInt 35); ("longitude", VInt 139)])].

Definition raw : list value := [VDict place_42; VDict place_39].

Definition body : dict := [("places", VList raw)].

Definition response_ok : response :=
  mkResponse 200 "" (Return (VDict body)).

Definition response_403 : response :=
  mkResponse 403 "forbidden" (Raise (OtherException "no body")).

Definition post_ok (_ : request) : result response := Return response_ok.
Definition post_403 (_ : request) : result response := Return response_403.

Definition sent : request :=
  post_request "test-key" (VStr "茅ヶ崎 ramen").

Definition record_42 : value :=
  VDict [
    ("name", VStr "麺屋");
    ("rating", VFloat (FFin (42 # 10)));
    ("user_ratings_total", VInt 120);
    ("address", VStr "茅ヶ崎市元町1-1");
    ("place_id", VStr "p42");
    ("types", VList [VStr "restaurant"]);
    ("geometry", VDict [])].

Definition outcome : value :=
  VDict [
    ("query", VStr "ramen");
    ("min_rating", VFloat (FFin (4 # 1)));
    ("count", VInt 1);
    ("places", VList [record_42])].

Definition content : list TextContent :=
  [mkTextContent "text" (json_dumps outcome false (Some 2))].

End Scenario.

(** ** A server process over its lifetime *)

Module Session.
Import Py Mcp Server.

Section Serve.
Variable repr : value -> string.
Variable builtin_text : exn -> string.

(** One tool invocation reaching [call_tool]: the tool name, the
    arguments, and how the HTTP client behaves while it runs. *)
Definition invocation : Type :=
  (string * dict * (request -> result response))%type.

(** The invocations of one process, in order: each finds the global
    [MAPS_API_KEY] as the one before left it.  The result is the final
    value of the global and, per invocation, the requests made and
    what [call_tool] returned or raised. *)
Fixpoint serve (MAPS_API_KEY : option string)
    (environ : string -> option string) (calls : list invocation)
  : option string * list (list request * result (list TextContent)) :=
  match calls with
  | [] => (MAPS_API_KEY, [])
  | (tool, arguments, post) :: later =>
      let step := call_tool repr builtin_text MAPS_API_KEY environ tool
                    arguments in
      let rest := serve (fst step) environ later in
      (fst rest, run post (snd step) :: snd rest)
  end.

End Serve.
End Session.

(** ** client.py: reporting the tool result *)

Module Report.
Import Py Mcp.

(** What [main] has printed, and whether the code run so far returned
    or raised: what was printed before an exception stays printed. *)
Definition printed (A : Type) : Type := (list string * result A)%type.

(** [print(line)] *)
Definition print (line : string) : printed unit := ([line], Return tt).

(** An evaluation that prints nothing. *)
Definition quiet {A} (r : result A) : printed A := ([], r).

Definition and_then {A B} (p : printed A) (k : A -> printed B) : printed B :=
  match p with
  | (lines, Return a) => (lines ++ fst (k a), snd (k a))%list
  | (lines, Raise e) => (lines, Raise e)
  end.

Notation "x <~ p ;; k" := (and_then p (fun x => k))
  (at level 61, p at next level, right associativity).

(** ["\n"] *)
Definition newline : string := String (ascii_of_nat 10) EmptyString.

(** ["-" * 60] *)
Definition rule : string :=
  "------------------------------------------------------------".

(** The place types the report names (line 144). *)
Definition restaurant_kinds : list string :=
  ["restaurant"; "food"; "meal_takeaway"; "cafe"; "bakery"].

(** [[t for t in types if t in [...]]] (lines 142-145): an item that
    is not a [str] equals none of the five names and is dropped, so
    the items kept are strings. *)
Fixpoint restaurant_types (types : list value) : list string :=
  match types with
  | [] => []
  | VStr t :: rest =>
      if existsb (String.eqb t) restaurant_kinds
      then t :: restaurant_types rest
      else restaurant_types rest
  | _ :: rest => restaurant_types rest
  end.

Section Printing.

(** Left open, as for the server: [str(v)] of a value that is neither
    a [str] nor an [int], [str(e)] of an exception, and what
    [format(v, ".1f")] gives or raises. *)
Variable repr : value -> string.
Variable builtin_text : exn -> string.
Variable format_1f : value -> result string.

(** What an f-string field [{v}] inserts. *)
Definition str (v : value) : string :=
  match v with
  | VStr s => s
  | VInt n => str_of_int n
  | _ => repr v
  end.

(** Lines 129-149: the block of one place. *)
Definition show_place (idx : Z) (place : value) : printed unit :=
  name <~ quiet (call_get place "name" (VStr "不明")) ;;
  rating <~ quiet (call_get place "rating" (VInt 0)) ;;
  user_ratings_total <~ quiet (call_get place "user_ratings_total" (VInt 0)) ;;
  address <~ quiet (call_get place "address" (VStr "住所不明")) ;;
  _ <~ print (newline ++ "📍 " ++ str_of_int idx ++ ". " ++ str name) ;;
  rating_text <~ quiet (format_1f rating) ;;
  _ <~ print ("   ⭐ 評価: " ++ rating_text ++ " (" ++ str user_ratings_total
               ++ "件のレビュー)") ;;
  _ <~ print ("   📍 住所: " ++ str address) ;;
  types <~ quiet (call_get place "types" (VList [])) ;;
  _ <~ (if truthy types then
          items <~ quiet (iterate types) ;;
          match restaurant_types items with
          | [] => quiet (Return tt)
          | shown => print ("   🍽️  タイプ: " ++ String.concat ", " shown)
          end
        else quiet (Return tt)) ;;
  print "".

(** Line 128: [for idx, place in enumerate(places, 1)]. *)
Fixpoint show_places (idx : Z) (places : list value) : printed unit :=
  match places with
  | [] => quiet (Return tt)
  | place :: rest =>
      _ <~ show_place idx place ;;
      show_places (idx + 1) rest
  end.

(** Lines 112-153: the report of a decoded result. *)
Definition show (data : value) : printed unit :=
  has_error <~ quiet (str_in "error" data) ;;
  if has_error then
    error <~ quiet (getitem data "error") ;;
    print ("❌ エラー: " ++ str error)
  else
    location_name <~ quiet (call_get data "location" (VStr "指定地域")) ;;
    count <~ quiet (getitem data "count") ;;
    _ <~ print ("✅ 検索完了: " ++ str location_name ++ "で" ++ str count
                 ++ "件のスポットが見つかりました") ;;
    _ <~ print "" ;;
    _ <~ print rule ;;
    places <~ quiet (call_get data "places" (VList [])) ;;
    _ <~ (if negb (truthy places) then
            _ <~ print "😔 条件に一致するスポットが見つかりませんでした。" ;;
            print "検索条件を変更してお試しください。"
          else
            items <~ quiet (iterate places) ;;
            show_places 1 items) ;;
    _ <~ print rule ;;
    _ <~ print "" ;;
    print "💡 ヒント: より詳細な情報は、Google Mapsで検索してください。".

(** Lines 158-166: what the [except] clause prints before [sys.exit(1)]. *)
Definition troubleshooting (e : exn) : list string :=
  ["❌ エラーが発生しました: " ++ Server.str_exn builtin_text e;
   "";
   "トラブルシューティング:";
   "1. .envファイルにMAPS_API_KEYが設定されているか確認してください";
   "2. server.pyが正常に起動できるか確認してください";
   "3. インターネット接続を確認してください"].

(** Lines 102-166: from the content of the tool result to the lines
    printed and the exit status of the process.  The text of the first
    content item is what the server's [json.dumps] wrote, and
    [json.loads] gives its document back. *)
Definition report (content : list TextContent) : list string * Z :=
  let attempt :=
    match content with
    | [] => print "❌ サーバーから結果が返されませんでした。"
    | first :: _ =>
        match text first with
        | json_dumps data _ _ => show data
        end
    end in
  match attempt with
  | (lines, Return _) => (lines, 0)
  | (lines, Raise e) => ((lines ++ troubleshooting e)%list, 1)
  end.

End Printing.
End Report.

(** ** More vocabulary *)

Module Facts.
Import Py Mcp Server Spec.

(** The value of a request header. *)
Fixpoint header (name : string) (hs : list (string * string))
  : option string :=
  match hs with
  | [] => None
  | (k, v) :: hs' => if String.eqb k name then Some v else header name hs'
  end.

(** Every place of the list is an object whose rating compares with
    the minimum. *)
Definition comparable_places (min_rating : value) (raw : list value) : Prop :=
  exists ds,
    raw = map VDict ds /\
    forall d, In d ds -> exists b, ge (rating d) min_rating = Return b.

(** A record's rating is at least the minimum. *)
Definition record_passes (min_rating : value) (info : value) : bool :=
  match field info "rating" with
  | Some r =>
      match ge r min_rating with
      | Return true => true
      | _ => false
      end
  | None => false
  end.

(** The items the handler's loop visits in a decoded body (lines
    159-160): those of its places entry, none when it has no such
    entry. *)
Definition visited (places_result : value) : result (list value) :=
  present <- str_in "places" places_result ;;
  if present then
    raw <- getitem places_result "places" ;;
    iterate raw
  else Return [].

(** The exceptions the interpreter raises on ill-typed data, as opposed
    to those the program or the HTTP client raises. *)
Definition from_interpreter (e : exn) : Prop :=
  match e with
  | ValueError _ | HTTPStatusError _ _ | OtherException _ => False
  | _ => True
  end.

(** What a session answers to an invocation while no credential can be
    found. *)
Definition answer_without_credential (call : Session.invocation)
  : list request * result (list TextContent) :=
  let '(tool, _, _) := call in
  if String.eqb tool "search_places"
  then ([], Return (error_content missing_key_message))
  else ([], Raise (ValueError ("未知のツール: " ++ tool))).

End Facts.

(** ** More concrete runs *)

Module Cases.
Import Py Mcp Server.

(** An environment whose MAPS_API_KEY entry is the empty string. *)
Definition environ_empty_key (key : string) : option string :=
  if String.eqb key "MAPS_API_KEY" then Some "" else None.

(** Two invocations of one process: a search, then a tool that does
    not exist. *)
Definition calls : list Session.invocation :=
  [("search_places", Scenario.arguments, Scenario.post_ok);
   ("search_hotels", Scenario.arguments, Scenario.post_ok)].

(** The scenario's search with a minimum of 4.5, and with none given. *)
Definition arguments_45 : dict :=
  Client.tool_arguments "茅ヶ崎市" "ramen" (FFin (45 # 10)).

Definition arguments_default : dict := [("query", VStr "ramen")].

(** A query that is a number. *)
Definition arguments_numeric : dict := [("query", VInt 5)].

(** Under a minimum of 4.5 neither place of the scenario is listed. *)
Definition outcome_45 : value :=
  VDict [
    ("query", VStr "ramen");
    ("min_rating", VFloat (FFin (45 # 10)));
    ("count", VInt 0);
    ("places", VList [])].

Definition content_45 : list TextContent :=
  [mkTextContent "text" (json_dumps outcome_45 false (Some 2))].

(** An answer without a places entry. *)
Definition response_empty : response :=
  mkResponse 200 "{}" (Return (VDict [])).

Definition post_empty (_ : request) : result response := Return response_empty.

(** An answer whose first place has no rating. *)
Definition place_unrated : dict :=
  [("id", VStr "p0"); ("displayName", VDict [("text", VStr "新店")])].

Definition raw_unrated : list value :=
  [VDict place_unrated; VDict Scenario.place_42].

Definition body_unrated : dict := [("places", VList raw_unrated)].

Definition response_unrated : response :=
  mkResponse 200 "" (Return (VDict body_unrated)).

Definition post_unrated (_ : request) : result response :=
  Return response_unrated.

(** The error payload for the scenario's HTTP 403. *)
Definition content_403 : list TextContent :=
  error_content "API呼び出しエラー (ステータス 403): forbidden".

(** The one advertised tool. *)
Definition advertised : Tool := hd (mkTool "" "" VNone) list_tools.

Definition format_1f (_ : value) : result string := Return "<.1f>".

End Cases.

(** ** Properties *)

Import Py Mcp Server Spec.

(** *** Substrings *)

Lemma prefix_iff (p s : string) :
  String.prefix p s = true <-> exists rest, s = p ++ rest.
Proof.
  revert s; induction p as [|a p IH]; intros s.
  - split; [intros _; now exists s | now destruct s].
  - destruct s as [|b s]; simpl.
    + split; [discriminate | intros [rest H]; discriminate H].
    + destruct (Ascii.ascii_dec a b) as [->|Hab].
      * rewrite IH. split; intros [rest H]; exists rest.
        -- now rewrite H.
        -- now injection H.
      * split; [discriminate | intros [rest H]; injection H; congruence].
Qed.

Lemma contains_iff (sub s : string) :
  contains sub s = true <-> occurs sub s.
Proof.
  unfold occurs. induction s as [|c s IH].
  - cbn [contains]. rewrite orb_false_r, prefix_iff. split.
    + intros [rest H]. now exists "", rest.
    + intros [before [after H]]. destruct before; [now exists after|discriminate].
  - cbn [contains]. rewrite orb_true_iff, prefix_iff, IH. split.
    + intros [[rest H] | [before [after H]]].
      * now exists "", rest.
      * exists (String c before), after. simpl. now rewrite H.
    + intros [before [after H]]. destruct before as [|b before].
      * left. now exists after.
      * right. exists before, after. simpl in H. now injection H.
Qed.

Lemma contains_false_iff (sub s : string) :
  contains sub s = false <-> ~ occurs sub s.
Proof.
  rewrite <- contains_iff. destruct (contains sub s); split; congruence.
Qed.

(** *** The reshaping of one place *)

Section ReshapeFacts.
Variable repr : value -> string.

Lemma place_info_record (place : dict) :
  place_info repr (VDict place) (rating place)
  = Return (record_of repr place).
Proof.
  unfold place_info, record_of, name_of, entry_or, coordinates_of,
    call_get, get, bind.
  destruct (lookup "displayName" place) as [[ | | | | |l|dn]|];
    cbn [is_dict Server.str];
    try destruct (lookup "text" dn);
    (destruct (lookup "location" place) as [location|];
     [destruct (truthy location) eqn:Hloc; cbn [truthy]; rewrite ?Hloc|]);
    reflexivity.
Qed.

End ReshapeFacts.

(** *** The loop over the places *)

Section LoopFacts.
Variable repr : value -> string.

Lemma collect_places_inv (min_rating : value) (todo acc places : list value) :
  collect_places repr min_rating todo acc = Return places ->
  exists ds,
    todo = map VDict ds /\
    (forall d, In d ds -> exists b, ge (rating d) min_rating = Return b) /\
    places = (acc ++ map (record_of repr) (filter (passes min_rating) ds))%list.
Proof.
  revert acc; induction todo as [|place todo IH]; intros acc H.
  - exists []. simpl in *. injection H as <-.
    split; [reflexivity|]. split; [intros d []|]. now rewrite app_nil_r.
  - cbn [collect_places] in H.
    destruct place as [ | | | | | |d]; try discriminate H.
    cbn [call_get bind] in H.
    change (get d "rating" (VInt 0)) with (rating d) in H.
    destruct (ge (rating d) min_rating) as [keep|e] eqn:Hge; [|discriminate H].
    cbn [bind] in H. destruct keep.
    + rewrite place_info_record in H. cbn [bind] in H.
      destruct (IH _ H) as (ds & -> & Hall & ->).
      exists (d :: ds). split; [reflexivity|]. split.
      * intros d' [<-|Hin]; [now exists true | now apply Hall].
      * cbn [filter]. unfold passes at 2. rewrite Hge.
        now rewrite <- app_assoc.
    + destruct (IH _ H) as (ds & -> & Hall & ->).
      exists (d :: ds). split; [reflexivity|]. split.
      * intros d' [<-|Hin]; [now exists false | now apply Hall].
      * cbn [filter]. unfold passes at 2. now rewrite Hge.
Qed.

Lemma collect_places_total (min_rating : value) (ds : list dict)
    (acc : list value) :
  (forall d, In d ds -> exists b, ge (rating d) min_rating = Return b) ->
  collect_places repr min_rating (map VDict ds) acc
  = Return (acc ++ map (record_of repr) (filter (passes min_rating) ds))%list.
Proof.
  revert acc; induction ds as [|d ds IH]; intros acc Hall.
  - simpl. now rewrite app_nil_r.
  - cbn [map collect_places call_get bind].
    change (get d "rating" (VInt 0)) with (rating d).
    destruct (Hall d (or_introl eq_refl)) as [b Hge].
    cbn [filter]. unfold passes at 1. rewrite Hge. cbn [bind].
    destruct b.
    + rewrite place_info_record. cbn [bind].
      rewrite IH by (intros; apply Hall; now right).
      now rewrite <- app_assoc.
    + apply IH. intros; apply Hall; now right.
Qed.

(** When the decoded body is an object whose [places] entry is a list,
    the loop runs over exactly that list. *)
Lemma extract_places_list (min_rating : value) (body : dict)
    (raw : list value) :
  lookup "places" body = Some (VList raw) ->
  extract_places repr min_rating (VDict body)
  = collect_places repr min_rating raw [].
Proof.
  intros H. unfold extract_places, str_in, has_key, getitem, iterate, bind.
  now rewrite H.
Qed.

End LoopFacts.

(** *** The handler's control flow *)

Section HandlerFacts.
Variable repr : value -> string.
Variable builtin_text : exn -> string.

Let query_of (arguments : dict) : value := get arguments "query" (VStr "").
Let min_rating_of (arguments : dict) : value :=
  get arguments "min_rating" (VFloat (FFin (4 # 1))).

Lemma outcome_of_error (message : string) :
  outcome_of (error_content message)
  = Some (VDict [("error", VStr message)]).
Proof. reflexivity. Qed.

Lemma outcome_of_success (query min_rating : value) (places : list value) :
  outcome_of (success_content query min_rating places)
  = Some (VDict [("query", query); ("min_rating", min_rating);
                 ("count", VInt (Z.of_nat (List.length places)));
                 ("places", VList places)]).
Proof. reflexivity. Qed.

Lemma error_not_success (message : string) (o : value) :
  outcome_of (error_content message) = Some o -> ~ success_variant o.
Proof.
  rewrite outcome_of_error. intros [= <-] H. discriminate H.
Qed.

(** The [except] clauses leave nothing uncaught. *)
Lemma except_clauses_returns (r : result (list TextContent)) :
  exists content, except_clauses builtin_text r = Return content.
Proof.
  destruct r as [content|e]; [now exists content|].
  destruct e; simpl; eauto.
Qed.

(** Whatever was raised inside the [try] comes out as an error variant. *)
Lemma except_clauses_raise (e : exn) :
  exists message,
    except_clauses builtin_text (Raise e) = Return (error_content message).
Proof. destruct e; simpl; eauto. Qed.

(** A success document can only come from a [try] body that returned. *)
Lemma except_clauses_success (r : result (list TextContent))
    (content : list TextContent) (o : value) :
  except_clauses builtin_text r = Return content ->
  outcome_of content = Some o ->
  success_variant o ->
  r = Return content.
Proof.
  intros H Ho Hs. destruct r as [c|e]; [exact H|].
  destruct (except_clauses_raise e) as [message Hm].
  rewrite Hm in H. injection H as <-.
  now apply error_not_success in Ho.
Qed.

Lemma process_response_inv (query min_rating : value)
    (posted : result response) (content : list TextContent) :
  process_response repr query min_rating posted = Return content ->
  exists response places_result places,
    posted = Return response /\
    raise_for_status response = Return tt /\
    body_json response = Return places_result /\
    extract_places repr min_rating places_result = Return places /\
    content = success_content query min_rating places.
Proof.
  unfold process_response, bind. intros H.
  destruct posted as [response|e]; [|discriminate H].
  destruct (raise_for_status response) as [[]|e] eqn:Hst; [|discriminate H].
  destruct (body_json response) as [places_result|e] eqn:Hb; [|discriminate H].
  destruct (extract_places repr min_rating places_result) as [places|e] eqn:Hx;
    [|discriminate H].
  injection H as <-. now exists response, places_result, places.
Qed.

(** The three ways [search] can go. *)
Lemma search_cases (key : string) (arguments : dict) :
  (truthy (query_of arguments) = false /\
   search repr builtin_text key arguments
   = Done (Raise (ValueError missing_query_message)))
  \/
  (truthy (query_of arguments) = true /\
   exists e message,
     search_query_of repr (query_of arguments) = Raise e /\
     search repr builtin_text key arguments
     = Done (Return (error_content message)))
  \/
  (truthy (query_of arguments) = true /\
   exists search_query,
     search_query_of repr (query_of arguments) = Return search_query /\
     search repr builtin_text key arguments
     = Await_post (post_request key search_query)
         (fun posted =>
            except_clauses builtin_text
              (process_response repr (query_of arguments)
                 (min_rating_of arguments) posted))).
Proof.
  unfold search. fold (query_of arguments) (min_rating_of arguments).
  destruct (truthy (query_of arguments)); [right|left; now split].
  destruct (search_query_of repr (query_of arguments)) as [sq|e] eqn:Hq.
  - right. split; [reflexivity|]. now exists sq.
  - left. split; [reflexivity|].
    destruct (except_clauses_raise e) as [message ->]. now exists e, message.
Qed.

(** The two ways the credential check can go. *)
Lemma handle_search_places_cases (MAPS_API_KEY : option string)
    (environ : string -> option string) (arguments : dict) :
  (MAPS_API_KEY = None /\ credential_absent environ /\
   handle_search_places repr builtin_text MAPS_API_KEY environ arguments
   = (environ "MAPS_API_KEY",
      Done (Return (error_content missing_key_message))))
  \/
  (exists key,
     credential_available MAPS_API_KEY environ key /\
     handle_search_places repr builtin_text MAPS_API_KEY environ arguments
     = (Some key, search repr builtin_text key arguments)).
Proof.
  unfold handle_search_places, getenv, credential_absent,
    credential_available.
  destruct MAPS_API_KEY as [key|].
  - right. exists key. split; [now left | reflexivity].
  - destruct (environ "MAPS_API_KEY") as [key|] eqn:Henv.
    + destruct (String.eqb_spec key "") as [->|Hne].
      * left. now repeat split.
      * right. exists key. split; [right; now repeat split | reflexivity].
    + left. now repeat split.
Qed.

(** What a success outcome tells about the run that produced it. *)
Lemma success_inv (MAPS_API_KEY : option string)
    (environ : string -> option string) (arguments : dict)
    (post : request -> result response) (reqs : list request)
    (content : list TextContent) (o : value) :
  run post
    (snd (handle_search_places repr builtin_text MAPS_API_KEY environ
            arguments))
  = (reqs, Return content) ->
  outcome_of content = Some o ->
  success_variant o ->
  exists key search_query response places_result places,
    credential_available MAPS_API_KEY environ key /\
    truthy (query_of arguments) = true /\
    search_query_of repr (query_of arguments) = Return search_query /\
    reqs = [post_request key search_query] /\
    post (post_request key search_query) = Return response /\
    raise_for_status response = Return tt /\
    body_json response = Return places_result /\
    extract_places repr (min_rating_of arguments) places_result
    = Return places /\
    content
    = success_content (query_of arguments) (min_rating_of arguments) places.
Proof.
  intros Hrun Ho Hs.
  destruct (handle_search_places_cases MAPS_API_KEY environ arguments)
    as [(_ & _ & Hh) | (key & Hkey & Hh)]; rewrite Hh in Hrun; cbn [snd] in Hrun.
  - injection Hrun as _ <-. now apply error_not_success in Ho.
  - destruct (search_cases key arguments)
      as [(_ & Hc) | [(_ & e & message & _ & Hc) | (Ht & sq & Hsq & Hc)]];
      rewrite Hc in Hrun; cbn [run] in Hrun.
    + discriminate Hrun.
    + injection Hrun as _ <-. now apply error_not_success in Ho.
    + injection Hrun as <- Hk.
      apply except_clauses_success with (o := o) in Hk; [|assumption..].
      apply process_response_inv in Hk.
      destruct Hk as (response & places_result & places & Hp & H1 & H2 & H3 & ->).
      exists key, sq, response, places_result, places. now repeat split.
Qed.

(** With a credential available the handler goes on to the search, and
    the slot holds the credential afterwards. *)
Lemma handle_search_places_available (MAPS_API_KEY : option string)
    (environ : string -> option string) (arguments : dict) (key : string) :
  credential_available MAPS_API_KEY environ key ->
  handle_search_places repr builtin_text MAPS_API_KEY environ arguments
  = (Some key, search repr builtin_text key arguments).
Proof.
  unfold handle_search_places, getenv.
  intros [-> | (-> & -> & Hne)]; [reflexivity|].
  now destruct (String.eqb_spec key "").
Qed.

(** Without one it stops at the credential check. *)
Lemma handle_search_places_absent (environ : string -> option string)
    (arguments : dict) :
  credential_absent environ ->
  handle_search_places repr builtin_text None environ arguments
  = (environ "MAPS_API_KEY",
     Done (Return (error_content missing_key_message))).
Proof.
  unfold handle_search_places, getenv, credential_absent.
  destruct (environ "MAPS_API_KEY") as [key|]; [|reflexivity].
  now intros ->.
Qed.

Lemma call_tool_search_places (MAPS_API_KEY : option string)
    (environ : string -> option string) (arguments : dict) :
  call_tool repr builtin_text MAPS_API_KEY environ "search_places" arguments
  = handle_search_places repr builtin_text MAPS_API_KEY environ arguments.
Proof. unfold call_tool. now rewrite String.eqb_refl. Qed.

(** A success outcome over an API body whose [places] entry is a list:
    the list holds objects only, every rating compared without raising,
    and the outcome's places are the reshaped places that passed. *)
Lemma success_over_places (MAPS_API_KEY : option string)
    (environ : string -> option string) (arguments : dict)
    (post : request -> result response) (reqs : list request)
    (content : list TextContent) (o : value)
    (response : response) (body : dict) (raw : list value) :
  run post
    (snd (handle_search_places repr builtin_text MAPS_API_KEY environ
            arguments))
  = (reqs, Return content) ->
  outcome_of content = Some o ->
  success_variant o ->
  Forall (fun req => post req = Return response) reqs ->
  body_json response = Return (VDict body) ->
  lookup "places" body = Some (VList raw) ->
  exists ds,
    raw = map VDict ds /\
    (forall d, In d ds ->
       exists b, ge (rating d) (min_rating_of arguments) = Return b) /\
    places_of o
    = Some (map (record_of repr)
              (filter (passes (min_rating_of arguments)) ds)).
Proof.
  intros Hrun Ho Hs Hpost Hbody Hraw.
  destruct (success_inv _ _ _ _ _ _ _ Hrun Ho Hs)
    as (key & sq & response' & places_result & places
        & _ & _ & _ & -> & Hp & _ & Hj & Hx & ->).
  apply Forall_inv in Hpost. rewrite Hp in Hpost. injection Hpost as ->.
  rewrite Hbody in Hj. injection Hj as <-.
  rewrite (extract_places_list _ _ _ _ Hraw) in Hx.
  apply collect_places_inv in Hx. destruct Hx as (ds & -> & Hall & ->).
  rewrite outcome_of_success in Ho. injection Ho as <-.
  now exists ds.
Qed.

(** The handler does return a success outcome when the API answers 2xx
    with an object whose [places] are objects with ratings that compare
    with the minimum. *)
Lemma search_succeeds (key : string) (arguments : dict)
    (post : request -> result response) (search_query : value)
    (response : response) (body : dict) (ds : list dict) :
  truthy (query_of arguments) = true ->
  search_query_of repr (query_of arguments) = Return search_query ->
  post (post_request key search_query) = Return response ->
  200 <= status_code response <= 299 ->
  body_json response = Return (VDict body) ->
  lookup "places" body = Some (VList (map VDict ds)) ->
  (forall d, In d ds ->
     exists b, ge (rating d) (min_rating_of arguments) = Return b) ->
  run post (search repr builtin_text key arguments)
  = ([post_request key search_query],
     Return (success_content (query_of arguments) (min_rating_of arguments)
               (map (record_of repr)
                  (filter (passes (min_rating_of arguments)) ds)))).
Proof.
  intros Ht Hsq Hpost Hst Hj Hplaces Hall.
  unfold search. fold (query_of arguments) (min_rating_of arguments).
  rewrite Ht, Hsq. cbn [negb run]. rewrite Hpost.
  unfold process_response, raise_for_status. cbn [bind].
  replace (200 <=? status_code response) with true by (symmetry; lia).
  replace (status_code response <=? 299) with true by (symmetry; lia).
  cbn [andb bind]. rewrite Hj. cbn [bind].
  rewrite (extract_places_list _ _ _ _ Hplaces).
  rewrite (collect_places_total _ _ _ _ Hall). reflexivity.
Qed.

End HandlerFacts.

(** *** Comparison of numbers *)

Lemma ge_number (a b : value) (x y : pyfloat) :
  as_number a = Some x -> as_number b = Some y ->
  ge a b = Return (float_geb x y).
Proof.
  destruct a, b; simpl; try discriminate; now intros [= <-] [= <-].
Qed.

Lemma float_eq_geb (x y : pyfloat) : float_eq x y -> float_geb x y = true.
Proof.
  destruct x, y; simpl; try tauto.
  intros H. apply Qle_bool_iff. rewrite H. apply Qle_refl.
Qed.

Lemma float_lt_geb (x y : pyfloat) : float_lt x y -> float_geb x y = false.
Proof.
  destruct x, y; simpl; try tauto.
  intros H. destruct (Qle_bool q0 q) eqn:E; [|reflexivity].
  apply Qle_bool_iff in E. exfalso. exact (Qlt_not_le _ _ H E).
Qed.

Lemma passes_iff (min_rating : value) (d : dict) :
  passes min_rating d = true <-> ge (rating d) min_rating = Return true.
Proof.
  unfold passes. destruct (ge (rating d) min_rating) as [[]|e];
    split; congruence.
Qed.

(** ** The claims *)

Section Claims.
Variable repr : value -> string.
Variable builtin_text : exn -> string.

(** C1.  In a success outcome, the places list is the API's list
    filtered by [rating >= min_rating] (each kept place reshaped, in
    the API's order): a place of the API's list is in the outcome if
    and only if its rating compares [>=] the minimum.  The comparison
    is inclusive: a rating equal to the minimum is included, a rating
    below it is excluded. *)
Theorem C1_rating_filter
    (MAPS_API_KEY : option string) (environ : string -> option string)
    (arguments : dict) (post : request -> result response)
    (reqs : list request) (content : list TextContent) (o : value)
    (response : response) (body : dict) (raw : list value) :
  run post
    (snd (handle_search_places repr builtin_text MAPS_API_KEY environ
            arguments))
  = (reqs, Return content) ->
  outcome_of content = Some o ->
  success_variant o ->
  Forall (fun req => post req = Return response) reqs ->
  body_json response = Return (VDict body) ->
  lookup "places" body = Some (VList raw) ->
  let min_rating := get arguments "min_rating" (VFloat (FFin (4 # 1))) in
  exists ds places,
    raw = map VDict ds /\
    places_of o = Some places /\
    places = map (record_of repr) (filter (passes min_rating) ds) /\
    (forall d, In d ds ->
       (In (record_of repr d) places
        <-> ge (rating d) min_rating = Return true)) /\
    (forall d r m, In d ds ->
       as_number (rating d) = Some r -> as_number min_rating = Some m ->
       (float_eq r m -> In (record_of repr d) places) /\
       (float_lt r m -> ~ In (record_of repr d) places)).
Proof.
  intros Hrun Ho Hs Hpost Hbody Hraw min_rating.
  destruct (success_over_places _ _ _ _ _ _ _ _ _ _ _ _
              Hrun Ho Hs Hpost Hbody Hraw) as (ds & -> & _ & Hpl).
  fold min_rating in Hpl.
  set (places := map (record_of repr) (filter (passes min_rating) ds)) in *.
  assert (Hiff : forall d, In d ds ->
            (In (record_of repr d) places
             <-> ge (rating d) min_rating = Return true)).
  { intros d Hd. unfold places. rewrite in_map_iff. split.
    - intros (d' & Heq & Hin). apply filter_In in Hin. destruct Hin as [_ Hin].
      apply passes_iff in Hin. injection Heq as _ Hr _. now rewrite <- Hr.
    - intros Hge. exists d. split; [reflexivity|].
      apply filter_In. split; [assumption | now apply passes_iff]. }
  exists ds, places. split; [reflexivity|]. split; [exact Hpl|].
  split; [reflexivity|]. split; [assumption|].
  intros d r m Hd Hr Hm. rewrite (Hiff d Hd), (ge_number _ _ _ _ Hr Hm). split.
  - intros H. now rewrite float_eq_geb.
  - intros H. now rewrite float_lt_geb.
Qed.

(** What the [except] clauses make of an exception: the API-call
    message around the status code and the body text for a status
    error, the search-error message around [str(e)] for any other. *)
Lemma except_clauses_message (e : exn) :
  except_clauses builtin_text (Raise e)
  = Return
      (error_content
         match e with
         | HTTPStatusError code text =>
             "API呼び出しエラー (ステータス " ++ str_of_int code ++ "): " ++ text
         | _ => "検索中にエラーが発生しました: " ++ str_exn builtin_text e
         end).
Proof. destruct e; reflexivity. Qed.

(** C2.  With a non-empty query the handler never raises: it returns
    one text content item holding a SearchOutcome, whatever the HTTP
    client does.  If a request was made and it failed, the outcome is
    the error variant and its message is fixed by the failure: when
    the client raised (network failure, timeout) or the body of a 2xx
    answer could not be decoded, the message is the search-error text
    followed by the text of the exception; when the status was not
    2xx, the message is the API-call text around the status code and
    the body text, so it includes the status code. *)
Theorem C2_api_failure_is_error_variant
    (MAPS_API_KEY : option string) (environ : string -> option string)
    (arguments : dict) (post : request -> result response) :
  truthy (get arguments "query" (VStr "")) = true ->
  let outcome :=
    run post
      (snd (handle_search_places repr builtin_text MAPS_API_KEY environ
              arguments)) in
  let status_message (code : Z) (text : string) :=
    "API呼び出しエラー (ステータス " ++ str_of_int code ++ "): " ++ text in
  let message_of (e : exn) :=
    match e with
    | HTTPStatusError code text => status_message code text
    | _ => "検索中にエラーが発生しました: " ++ str_exn builtin_text e
    end in
  exists content o,
    snd outcome = Return content /\
    outcome_of content = Some o /\
    forall req, In req (fst outcome) ->
      (forall e, post req = Raise e -> error_variant o (message_of e))
      /\
      (forall msg, post req = Raise (OtherException msg) ->
         error_variant o ("検索中にエラーが発生しました: " ++ msg))
      /\
      (forall response, post req = Return response ->
         ~ (200 <= status_code response <= 299) ->
         error_variant o
           (status_message (status_code response) (body_text response)) /\
         occurs (str_of_int (status_code response))
           (status_message (status_code response) (body_text response)))
      /\
      (forall response e, post req = Return response ->
         200 <= status_code response <= 299 ->
         body_json response = Raise e ->
         error_variant o (message_of e))
      /\
      (forall response e, post req = Return response ->
         body_json response = Raise e ->
         exists message, error_variant o message /\ message <> "").
Proof.
  intros Hq outcome status_message message_of.
  subst outcome status_message message_of. cbv beta.
  destruct (handle_search_places_cases repr builtin_text MAPS_API_KEY environ
              arguments) as [(_ & _ & Hh) | (key & _ & Hh)];
    rewrite Hh; cbn [snd].
  { eexists _, _. split; [reflexivity|]. split; [apply outcome_of_error|].
    intros req []. }
  destruct (search_cases repr builtin_text key arguments)
    as [(Hf & _) | [(_ & e & message & _ & Hc) | (_ & sq & _ & Hc)]];
    [congruence | rewrite Hc; cbn [run fst snd] ..].
  { eexists _, _. split; [reflexivity|]. split; [apply outcome_of_error|].
    intros req []. }
  set (query := get arguments "query" (VStr "")).
  set (min_rating := get arguments "min_rating" (VFloat (FFin (4 # 1)))).
  set (req0 := post_request key sq).
  destruct (process_response repr query min_rating (post req0))
    as [content|e] eqn:Hp.
  - (* the call and the decoding went through *)
    destruct (process_response_inv _ _ _ _ _ Hp)
      as (response & places_result & places & Hpost & Hst & Hj & _ & ->).
    eexists _, _. split; [reflexivity|]. split; [apply outcome_of_success|].
    intros req [<-|[]]. rewrite Hpost.
    split; [discriminate|]. split; [discriminate|]. split; [|split].
    + intros response' [= <-] Hn. exfalso. apply Hn.
      unfold raise_for_status in Hst.
      destruct (200 <=? status_code response) eqn:E1;
        destruct (status_code response <=? 299) eqn:E2;
        try discriminate Hst. lia.
    + intros response' e [= <-]. congruence.
    + intros response' e [= <-]. congruence.
  - (* something was raised inside the try *)
    rewrite except_clauses_message.
    eexists _, _. split; [reflexivity|]. split; [apply outcome_of_error|].
    intros req [<-|[]]. unfold process_response in Hp.
    split; [|split; [|split; [|split]]].
    + intros e' Hpost. rewrite Hpost in Hp. cbn [bind] in Hp.
      injection Hp as <-. reflexivity.
    + intros msg Hpost. rewrite Hpost in Hp. cbn [bind] in Hp.
      injection Hp as <-. reflexivity.
    + intros response Hpost Hn.
      assert (He : e = HTTPStatusError (status_code response)
                         (body_text response)).
      { rewrite Hpost in Hp. cbn [bind] in Hp.
        unfold raise_for_status in Hp.
        destruct (200 <=? status_code response) eqn:E1;
          destruct (status_code response <=? 299) eqn:E2;
          cbn [andb bind] in Hp; try congruence. lia. }
      subst e. split; [reflexivity|].
      now exists "API呼び出しエラー (ステータス ", ("): " ++ body_text response).
    + intros response e' Hpost Hst Hj. rewrite Hpost in Hp. cbn [bind] in Hp.
      unfold raise_for_status in Hp.
      replace (200 <=? status_code response) with true in Hp
        by (symmetry; lia).
      replace (status_code response <=? 299) with true in Hp
        by (symmetry; lia).
      cbn [andb bind] in Hp. rewrite Hj in Hp. cbn [bind] in Hp.
      injection Hp as <-. reflexivity.
    + intros response e' _ _. eexists. split; [reflexivity|].
      destruct e; discriminate.
Qed.

(** C3 (as amended).  When the query is empty or absent no request is
    made to the external API.  With a credential available the handler
    raises the missing-argument [ValueError], which leaves [call_tool]
    as raised: it is not turned into an error variant.  Without a
    credential the handler returns the missing-credential error variant
    instead. *)
Theorem C3_missing_query_raises
    (MAPS_API_KEY : option string) (environ : string -> option string)
    (arguments : dict) :
  truthy (get arguments "query" (VStr "")) = false ->
  let h :=
    handle_search_places repr builtin_text MAPS_API_KEY environ arguments in
  (forall post, fst (run post (snd h)) = []) /\
  (forall key, credential_available MAPS_API_KEY environ key ->
     h = (Some key, Done (Raise (ValueError missing_query_message))) /\
     call_tool repr builtin_text MAPS_API_KEY environ "search_places" arguments
     = h) /\
  (MAPS_API_KEY = None -> credential_absent environ ->
     h = (environ "MAPS_API_KEY",
          Done (Return (error_content missing_key_message)))).
Proof.
  intros Hq h. subst h.
  assert (Hs : forall key,
             search repr builtin_text key arguments
             = Done (Raise (ValueError missing_query_message))).
  { intros key. unfold search. now rewrite Hq. }
  split; [|split].
  - intros post.
    destruct (handle_search_places_cases repr builtin_text MAPS_API_KEY
                environ arguments) as [(_ & _ & ->) | (key & _ & ->)];
      [reflexivity|]. cbn [snd]. now rewrite Hs.
  - intros key Hk.
    rewrite call_tool_search_places.
    rewrite (handle_search_places_available _ _ _ _ _ _ Hk), Hs.
    split; reflexivity.
  - intros -> Ha. now apply handle_search_places_absent.
Qed.

(** C4 (as amended).  Every record of a success outcome is the
    reshaping of a place of the API's list: its name is the text of the
    place's displayName, the "unknown" sentinel when the displayName or
    its text is absent; the rating count is 0 when absent; the address
    is the "address unknown" sentinel when absent; the category tags
    are the empty list when absent.  The geometry entry is always part
    of the record: it holds the place's location when there is a
    non-empty one, and is the empty object -- no location entry, no
    default coordinates -- when the place has none. *)
Theorem C4_place_record
    (MAPS_API_KEY : option string) (environ : string -> option string)
    (arguments : dict) (post : request -> result response)
    (reqs : list request) (content : list TextContent) (o : value)
    (response : response) (body : dict) (raw : list value) :
  run post
    (snd (handle_search_places repr builtin_text MAPS_API_KEY environ
            arguments))
  = (reqs, Return content) ->
  outcome_of content = Some o ->
  success_variant o ->
  Forall (fun req => post req = Return response) reqs ->
  body_json response = Return (VDict body) ->
  lookup "places" body = Some (VList raw) ->
  exists places,
    places_of o = Some places /\
    forall info, In info places ->
      exists place,
        In (VDict place) raw /\
        info = record_of repr place /\
        field info "rating" = Some (rating place) /\
        (lookup "displayName" place = None ->
         field info "name" = Some (VStr "不明")) /\
        (forall display_name,
           lookup "displayName" place = Some (VDict display_name) ->
           field info "name"
           = Some (match lookup "text" display_name with
                   | Some t => t
                   | None => VStr "不明"
                   end)) /\
        (lookup "userRatingCount" place = None ->
         field info "user_ratings_total" = Some (VInt 0)) /\
        (lookup "formattedAddress" place = None ->
         field info "address" = Some (VStr "住所不明")) /\
        (lookup "types" place = None ->
         field info "types" = Some (VList [])) /\
        (lookup "location" place = None ->
         field info "geometry" = Some (VDict [])) /\
        (forall location,
           lookup "location" place = Some location ->
           truthy location = true ->
           field info "geometry" = Some (VDict [("location", location)])).
Proof.
  intros Hrun Ho Hs Hpost Hbody Hraw.
  destruct (success_over_places _ _ _ _ _ _ _ _ _ _ _ _
              Hrun Ho Hs Hpost Hbody Hraw) as (ds & -> & _ & Hpl).
  eexists. split; [exact Hpl|].
  intros info Hin. apply in_map_iff in Hin.
  destruct Hin as (place & <- & Hin). apply filter_In in Hin.
  exists place. split; [apply in_map; tauto|]. split; [reflexivity|].
  change (field (record_of repr place) "rating") with (Some (rating place)).
  change (field (record_of repr place) "name")
    with (Some (name_of repr place)).
  change (field (record_of repr place) "user_ratings_total")
    with (Some (entry_or place "userRatingCount" (VInt 0))).
  change (field (record_of repr place) "address")
    with (Some (entry_or place "formattedAddress" (VStr "住所不明"))).
  change (field (record_of repr place) "types")
    with (Some (entry_or place "types" (VList []))).
  change (field (record_of repr place) "geometry")
    with (Some (VDict (coordinates_of place))).
  unfold name_of, entry_or, coordinates_of.
  repeat split.
  - now intros ->.
  - now intros display_name ->.
  - now intros ->.
  - now intros ->.
  - now intros ->.
  - now intros ->.
  - intros location -> Ht. now rewrite Ht.
Qed.

(** C5.  The query sent to the API is a function of the query string
    alone: the string itself when it mentions the locality in either
    accepted spelling, and otherwise the string behind the locality
    name and a space. *)
Theorem C5_locality_bias (query : string) :
  query <> "" ->
  exists sent,
    (mentions_locality query -> sent = query) /\
    (~ mentions_locality query -> sent = "茅ヶ崎 " ++ query) /\
    forall MAPS_API_KEY environ arguments key,
      credential_available MAPS_API_KEY environ key ->
      lookup "query" arguments = Some (VStr query) ->
      exists k,
        snd (handle_search_places repr builtin_text MAPS_API_KEY environ
               arguments)
        = Await_post (post_request key (VStr sent)) k /\
        field (json (post_request key (VStr sent))) "textQuery"
        = Some (VStr sent).
Proof.
  intros Hne.
  assert (Hsq : exists sent,
             search_query_of repr (VStr query) = Return (VStr sent) /\
             (mentions_locality query -> sent = query) /\
             (~ mentions_locality query -> sent = "茅ヶ崎 " ++ query)).
  { unfold search_query_of, str_in, bind, mentions_locality.
    destruct (contains "茅ヶ崎" query) eqn:Hja; cbn [negb].
    - apply contains_iff in Hja. exists query. tauto.
    - apply contains_false_iff in Hja.
      destruct (contains "Chigasaki" query) eqn:Hen; cbn [negb].
      + apply contains_iff in Hen. exists query. tauto.
      + apply contains_false_iff in Hen.
        exists ("茅ヶ崎 " ++ query). cbn [Server.str]. tauto. }
  destruct Hsq as (sent & Hsq & Hyes & Hno).
  exists sent. split; [assumption|]. split; [assumption|].
  intros MAPS_API_KEY environ arguments key Hk Hq.
  rewrite (handle_search_places_available _ _ _ _ _ _ Hk). cbn [snd].
  unfold search, get. rewrite Hq.
  assert (Ht : truthy (VStr query) = true).
  { cbn [truthy]. now destruct (String.eqb_spec query ""). }
  rewrite Ht, Hsq. cbn [negb]. eexists. split; reflexivity.
Qed.

(** C6.  With no credential in the environment the server starts all
    the same: the key slot starts empty whatever the environment holds
    and the tool list does not depend on it.  The first invocation then
    returns the error variant whose message names MAPS_API_KEY, makes
    no request, and leaves the slot as it was read.  The credential is
    read at the first invocation that finds one, and kept: a later
    invocation does not read the environment again. *)
Theorem C6_lazy_credential (environ : string -> option string) :
  credential_absent environ ->
  MAPS_API_KEY_at_startup = None /\
  map name list_tools = ["search_places"] /\
  (forall arguments,
     handle_search_places repr builtin_text MAPS_API_KEY_at_startup environ
       arguments
     = (environ "MAPS_API_KEY",
        Done (Return (error_content missing_key_message)))) /\
  outcome_of (error_content missing_key_message)
  = Some (VDict [("error", VStr missing_key_message)]) /\
  occurs "MAPS_API_KEY" missing_key_message /\
  (forall environ' key arguments,
     environ' "MAPS_API_KEY" = Some key -> key <> "" ->
     fst (handle_search_places repr builtin_text MAPS_API_KEY_at_startup
            environ' arguments) = Some key) /\
  (forall environ' key arguments,
     handle_search_places repr builtin_text (Some key) environ' arguments
     = handle_search_places repr builtin_text (Some key) environ arguments).
Proof.
  intros Habs. split; [reflexivity|]. split; [reflexivity|].
  split; [intros; now apply handle_search_places_absent|].
  split; [reflexivity|].
  split; [apply contains_iff; vm_compute; reflexivity|].
  split; [|reflexivity].
  intros environ' key arguments Henv Hne.
  rewrite (handle_search_places_available _ _ _ _ _ key); [reflexivity|].
  right. now repeat split.
Qed.

(** C7.  A tool name other than "search_places" is refused with the
    unknown-tool error: nothing else happens, the key slot is untouched
    and no request is made.  The name "search_places" runs the Places
    search handler on the given arguments. *)
Theorem C7_dispatch_by_name
    (MAPS_API_KEY : option string) (environ : string -> option string)
    (tool : string) (arguments : dict) :
  tool <> "search_places" ->
  call_tool repr builtin_text MAPS_API_KEY environ tool arguments
  = (MAPS_API_KEY, Done (Raise (ValueError ("未知のツール: " ++ tool)))) /\
  call_tool repr builtin_text MAPS_API_KEY environ "search_places" arguments
  = handle_search_places repr builtin_text MAPS_API_KEY environ arguments.
Proof.
  intros Hne. split; [|apply call_tool_search_places].
  unfold call_tool. now destruct (String.eqb_spec tool "search_places").
Qed.

(** C8.  A success outcome is the document
    [{query, min_rating, count, places}] in which count is the length
    of places, query is the query argument as given (not the biased
    one) and min_rating is the argument given, 4.0 when there is none. *)
Theorem C8_success_outcome_shape
    (MAPS_API_KEY : option string) (environ : string -> option string)
    (arguments : dict) (post : request -> result response)
    (reqs : list request) (content : list TextContent) (o : value) :
  run post
    (snd (handle_search_places repr builtin_text MAPS_API_KEY environ
            arguments))
  = (reqs, Return content) ->
  outcome_of content = Some o ->
  success_variant o ->
  exists places,
    places_of o = Some places /\
    field o "count" = Some (VInt (Z.of_nat (List.length places))) /\
    field o "query" = Some (get arguments "query" (VStr "")) /\
    field o "min_rating"
    = Some (match lookup "min_rating" arguments with
            | Some given => given
            | None => VFloat (FFin (4 # 1))
            end) /\
    o = VDict [("query", get arguments "query" (VStr ""));
               ("min_rating", get arguments "min_rating" (VFloat (FFin (4 # 1))));
               ("count", VInt (Z.of_nat (List.length places)));
               ("places", VList places)].
Proof.
  intros Hrun Ho Hs.
  destruct (success_inv _ _ _ _ _ _ _ _ _ Hrun Ho Hs)
    as (key & sq & response & places_result & places
        & _ & _ & _ & _ & _ & _ & _ & _ & ->).
  rewrite outcome_of_success in Ho. injection Ho as <-.
  exists places. repeat split.
Qed.

(** C9.  Only the query and min_rating entries of the arguments reach
    the handler: two argument mappings that agree on both give the
    same state change, the same request and the same result against
    any HTTP client, whatever else (a location entry, say) they hold. *)
Theorem C9_other_arguments_ignored
    (MAPS_API_KEY : option string) (environ : string -> option string)
    (arguments arguments' : dict) :
  lookup "query" arguments = lookup "query" arguments' ->
  lookup "min_rating" arguments = lookup "min_rating" arguments' ->
  handle_search_places repr builtin_text MAPS_API_KEY environ arguments
  = handle_search_places repr builtin_text MAPS_API_KEY environ arguments' /\
  forall post,
    run post
      (snd (handle_search_places repr builtin_text MAPS_API_KEY environ
              arguments))
    = run post
        (snd (handle_search_places repr builtin_text MAPS_API_KEY environ
                arguments')).
Proof.
  intros Hq Hm.
  assert (H : handle_search_places repr builtin_text MAPS_API_KEY environ
                arguments
              = handle_search_places repr builtin_text MAPS_API_KEY environ
                  arguments').
  { unfold handle_search_places, search, get. now rewrite Hq, Hm. }
  split; [exact H|]. intros post. now rewrite H.
Qed.

(** C10.  The credential check comes first.  While no credential is
    cached and the environment has none, every invocation returns the
    missing-credential error variant, also one whose query is empty or
    absent.  The missing-argument error is raised only by an invocation
    that has a credential available. *)
Theorem C10_credential_check_first
    (environ : string -> option string) (arguments : dict) :
  credential_absent environ ->
  handle_search_places repr builtin_text None environ arguments
  = (environ "MAPS_API_KEY",
     Done (Return (error_content missing_key_message))) /\
  forall MAPS_API_KEY environ' arguments' e,
    snd (handle_search_places repr builtin_text MAPS_API_KEY environ'
           arguments')
    = Done (Raise e) ->
    e = ValueError missing_query_message /\
    truthy (get arguments' "query" (VStr "")) = false /\
    exists key, credential_available MAPS_API_KEY environ' key.
Proof.
  intros Habs. split; [now apply handle_search_places_absent|].
  intros MAPS_API_KEY environ' arguments' e H.
  destruct (handle_search_places_cases repr builtin_text MAPS_API_KEY environ'
              arguments') as [(_ & _ & Hh) | (key & Hk & Hh)];
    rewrite Hh in H; cbn [snd] in H; [discriminate H|].
  destruct (search_cases repr builtin_text key arguments')
    as [(Hf & Hc) | [(_ & e' & message & _ & Hc) | (_ & sq & _ & Hc)]];
    rewrite Hc in H; try discriminate H.
  injection H as <-. split; [reflexivity|]. split; [exact Hf|]. now exists key.
Qed.

End Claims.

(** ** The claims at the stubbed API *)

(** The run of the specification's scenario: query "ramen", minimum
    4.0, places rated 4.2 and 3.9. *)
Lemma scenario_run :
  run Scenario.post_ok
    (snd (handle_search_places Scenario.repr Scenario.builtin_text None
            Scenario.environ_with_key Scenario.arguments))
  = ([Scenario.sent], Return Scenario.content).
Proof. vm_compute. reflexivity. Qed.

Lemma C1_rating_filter_witness :
  exists ds places,
    Scenario.raw = map VDict ds /\
    places_of Scenario.outcome = Some places /\
    places
    = map (record_of Scenario.repr)
        (filter (passes (VFloat (FFin (4 # 1)))) ds).
Proof.
  destruct (C1_rating_filter Scenario.repr Scenario.builtin_text None
              Scenario.environ_with_key Scenario.arguments Scenario.post_ok
              [Scenario.sent] Scenario.content Scenario.outcome
              Scenario.response_ok Scenario.body Scenario.raw)
    as (ds & places & H1 & H2 & H3 & _).
  - vm_compute. reflexivity.
  - reflexivity.
  - reflexivity.
  - repeat constructor.
  - reflexivity.
  - reflexivity.
  - exists ds, places. repeat split; assumption.
Defined.

(** HTTP 403 from the API: an error variant carrying the status code,
    returned, not raised. *)
Lemma C2_api_failure_is_error_variant_witness :
  exists content o,
    snd (run Scenario.post_403
           (snd (handle_search_places Scenario.repr Scenario.builtin_text
                   None Scenario.environ_with_key Scenario.arguments)))
    = Return content /\
    outcome_of content = Some o /\
    error_variant o "API呼び出しエラー (ステータス 403): forbidden".
Proof.
  destruct (C2_api_failure_is_error_variant Scenario.repr
              Scenario.builtin_text None Scenario.environ_with_key
              Scenario.arguments Scenario.post_403)
    as (content & o & H1 & H2 & H3).
  - reflexivity.
  - exists content, o. split; [exact H1|]. split; [exact H2|].
    destruct (H3 Scenario.sent) as (_ & _ & Hstatus & _).
    + vm_compute. now left.
    + destruct (Hstatus Scenario.response_403) as [Hv _].
      * reflexivity.
      * cbn. lia.
      * exact Hv.
Defined.

(** The claim C3 as stated fails when a credential is there and the
    query is empty: the handler raises, and returns no outcome. *)
Lemma C3_counterexample :
  let result :=
    snd (run Scenario.post_ok
           (snd (handle_search_places Scenario.repr Scenario.builtin_text
                   None Scenario.environ_with_key
                   Scenario.arguments_empty_query))) in
  truthy (get Scenario.arguments_empty_query "query" (VStr "")) = false /\
  result = Raise (ValueError missing_query_message) /\
  ~ (exists content message,
       result = Return content /\
       outcome_of content = Some (VDict [("error", VStr message)])).
Proof.
  cbv zeta. split; [reflexivity|]. split; [vm_compute; reflexivity|].
  intros (content & message & H & _). vm_compute in H. discriminate H.
Qed.

Lemma C3_missing_query_raises_witness :
  handle_search_places Scenario.repr Scenario.builtin_text None
    Scenario.environ_with_key Scenario.arguments_empty_query
  = (Some "test-key", Done (Raise (ValueError missing_query_message))).
Proof.
  destruct (C3_missing_query_raises Scenario.repr Scenario.builtin_text None
              Scenario.environ_with_key Scenario.arguments_empty_query)
    as (_ & Hraise & _).
  - reflexivity.
  - destruct (Hraise "test-key") as [H _].
    + right. repeat split. discriminate.
    + exact H.
Defined.

(** The claim C4 as stated fails on the first place of the scenario: it
    has no location, and its record still has the geometry field, as
    the empty object. *)
Lemma C4_counterexample :
  run Scenario.post_ok
    (snd (handle_search_places Scenario.repr Scenario.builtin_text None
            Scenario.environ_with_key Scenario.arguments))
  = ([Scenario.sent], Return Scenario.content) /\
  outcome_of Scenario.content = Some Scenario.outcome /\
  places_of Scenario.outcome = Some [Scenario.record_42] /\
  place_info Scenario.repr (VDict Scenario.place_42) (rating Scenario.place_42)
  = Return Scenario.record_42 /\
  lookup "location" Scenario.place_42 = None /\
  field Scenario.record_42 "geometry" = Some (VDict []) /\
  field Scenario.record_42 "geometry" <> None.
Proof.
  split; [vm_compute; reflexivity|].
  repeat (split; [reflexivity|]). discriminate.
Qed.

Lemma C4_place_record_witness :
  exists places,
    places_of Scenario.outcome = Some places /\
    forall info, In info places ->
      exists place,
        In (VDict place) Scenario.raw /\ info = record_of Scenario.repr place.
Proof.
  destruct (C4_place_record Scenario.repr Scenario.builtin_text None
              Scenario.environ_with_key Scenario.arguments Scenario.post_ok
              [Scenario.sent] Scenario.content Scenario.outcome
              Scenario.response_ok Scenario.body Scenario.raw)
    as (places & H1 & H2).
  - vm_compute. reflexivity.
  - reflexivity.
  - reflexivity.
  - repeat constructor.
  - reflexivity.
  - reflexivity.
  - exists places. split; [exact H1|]. intros info Hin.
    destruct (H2 info Hin) as (place & Hraw & Hrec & _).
    exists place. split; assumption.
Defined.

Lemma C5_locality_bias_witness :
  exists sent,
    (mentions_locality "ramen" -> sent = "ramen") /\
    (~ mentions_locality "ramen" -> sent = "茅ヶ崎 ramen") /\
    exists k,
      snd (handle_search_places Scenario.repr Scenario.builtin_text None
             Scenario.environ_with_key Scenario.arguments)
      = Await_post (post_request "test-key" (VStr sent)) k.
Proof.
  destruct (C5_locality_bias Scenario.repr Scenario.builtin_text "ramen")
    as (sent & Hyes & Hno & Hsent).
  - discriminate.
  - exists sent. split; [exact Hyes|]. split; [exact Hno|].
    destruct (Hsent None Scenario.environ_with_key Scenario.arguments
                "test-key") as (k & Hk & _).
    + right. repeat split. discriminate.
    + reflexivity.
    + now exists k.
Defined.

Lemma C6_lazy_credential_witness :
  handle_search_places Scenario.repr Scenario.builtin_text
    MAPS_API_KEY_at_startup Scenario.environ_without_key Scenario.arguments
  = (None, Done (Return (error_content missing_key_message))).
Proof.
  destruct (C6_lazy_credential Scenario.repr Scenario.builtin_text
              Scenario.environ_without_key)
    as (_ & _ & H & _).
  - exact I.
  - exact (H Scenario.arguments).
Defined.

Lemma C7_dispatch_by_name_witness :
  call_tool Scenario.repr Scenario.builtin_text None
    Scenario.environ_with_key "search_restaurants" Scenario.arguments
  = (None, Done (Raise (ValueError "未知のツール: search_restaurants"))).
Proof.
  destruct (C7_dispatch_by_name Scenario.repr Scenario.builtin_text None
              Scenario.environ_with_key "search_restaurants"
              Scenario.arguments) as [H _].
  - discriminate.
  - exact H.
Defined.

Lemma C8_success_outcome_shape_witness :
  exists places,
    places_of Scenario.outcome = Some places /\
    field Scenario.outcome "count" = Some (VInt (Z.of_nat (List.length places))).
Proof.
  destruct (C8_success_outcome_shape Scenario.repr Scenario.builtin_text None
              Scenario.environ_with_key Scenario.arguments Scenario.post_ok
              [Scenario.sent] Scenario.content Scenario.outcome)
    as (places & H1 & H2 & _).
  - vm_compute. reflexivity.
  - reflexivity.
  - reflexivity.
  - now exists places.
Defined.

Lemma C9_other_arguments_ignored_witness :
  handle_search_places Scenario.repr Scenario.builtin_text None
    Scenario.environ_with_key Scenario.arguments
  = handle_search_places Scenario.repr Scenario.builtin_text None
      Scenario.environ_with_key Scenario.arguments_elsewhere.
Proof.
  destruct (C9_other_arguments_ignored Scenario.repr Scenario.builtin_text
              None Scenario.environ_with_key Scenario.arguments
              Scenario.arguments_elsewhere) as [H _].
  - reflexivity.
  - reflexivity.
  - exact H.
Defined.

Lemma C10_credential_check_first_witness :
  handle_search_places Scenario.repr Scenario.builtin_text None
    Scenario.environ_without_key Scenario.arguments_empty_query
  = (None, Done (Return (error_content missing_key_message))).
Proof.
  destruct (C10_credential_check_first Scenario.repr Scenario.builtin_text
              Scenario.environ_without_key Scenario.arguments_empty_query)
    as [H _].
  - exact I.
  - exact H.
Defined.

(** ** Further properties of server.py *)

Import Facts.

Section ServerProperties.
Variable repr : value -> string.
Variable builtin_text : exn -> string.

(** Whatever the handler returns is either an error payload or a
    success payload over the invocation's own query and minimum. *)
Lemma handler_return_cases
    (MAPS_API_KEY : option string) (environ : string -> option string)
    (arguments : dict) (post : request -> result response)
    (content : list TextContent) :
  snd (run post
         (snd (handle_search_places repr builtin_text MAPS_API_KEY environ
                 arguments)))
  = Return content ->
  (exists message, content = error_content message) \/
  (exists places,
     content
     = success_content (get arguments "query" (VStr ""))
         (get arguments "min_rating" (VFloat (FFin (4 # 1)))) places).
Proof.
  intros H.
  destruct (handle_search_places_cases repr builtin_text MAPS_API_KEY environ
              arguments) as [(_ & _ & Hh) | (key & _ & Hh)];
    rewrite Hh in H; cbn [snd run] in H.
  { left. injection H as <-. now eexists. }
  destruct (search_cases repr builtin_text key arguments)
    as [(_ & Hc) | [(_ & e & message & _ & Hc) | (_ & sq & _ & Hc)]];
    rewrite Hc in H; cbn [snd run] in H.
  - discriminate H.
  - left. injection H as <-. now exists message.
  - destruct (process_response repr _ _ (post (post_request key sq)))
      as [c|e] eqn:Hp.
    + cbn [except_clauses] in H. injection H as <-.
      apply process_response_inv in Hp.
      destruct Hp as (_ & _ & places & _ & _ & _ & _ & ->).
      right. now exists places.
    + destruct (except_clauses_raise builtin_text e) as [message Hm].
      rewrite Hm in H. injection H as <-. left. now exists message.
Qed.

Lemma call_tool_cached (key : string) (environ environ' : string -> option string)
    (tool : string) (arguments : dict) :
  call_tool repr builtin_text (Some key) environ tool arguments
  = call_tool repr builtin_text (Some key) environ' tool arguments /\
  fst (call_tool repr builtin_text (Some key) environ tool arguments)
  = Some key.
Proof.
  unfold call_tool. destruct (String.eqb tool "search_places"); now split.
Qed.

(** X1.  Once a key is in the slot it stays there for the rest of the
    process: no invocation, of any tool and with any arguments, changes
    or clears it, and from then on the environment is not read: the
    same invocations give the same answers under any environment. *)
Theorem X1_cached_key_is_kept (key : string)
    (environ environ' : string -> option string)
    (calls : list Session.invocation) :
  fst (Session.serve repr builtin_text (Some key) environ calls) = Some key /\
  snd (Session.serve repr builtin_text (Some key) environ calls)
  = snd (Session.serve repr builtin_text (Some key) environ' calls).
Proof.
  induction calls as [|[[tool arguments] post] later [IHk IHo]];
    [now split|].
  cbn [Session.serve fst snd].
  destruct (call_tool_cached key environ environ' tool arguments) as [He Hk].
  rewrite <- He, Hk. split; [exact IHk | now rewrite IHo].
Qed.

(** X2.  While the environment has no MAPS_API_KEY entry, a process
    that starts with an empty slot never makes a request: every
    search_places invocation is answered with the missing-credential
    error variant, every other tool name raises the unknown-tool
    error, and the slot is still empty at the end. *)
Theorem X2_session_without_credential
    (environ : string -> option string) (calls : list Session.invocation) :
  environ "MAPS_API_KEY" = None ->
  Session.serve repr builtin_text None environ calls
  = (None, map answer_without_credential calls).
Proof.
  intros Henv. induction calls as [|[[tool arguments] post] later IH];
    [reflexivity|].
  cbn [Session.serve map answer_without_credential].
  unfold call_tool.
  destruct (String.eqb tool "search_places").
  - rewrite handle_search_places_absent
      by (unfold credential_absent; now rewrite Henv).
    rewrite Henv. cbn [fst snd run]. now rewrite IH.
  - cbn [fst snd run]. now rewrite IH.
Qed.

(** X3.  An empty MAPS_API_KEY entry is reported as missing only once.
    The first search_places invocation returns the missing-credential
    error and leaves the empty string in the slot; the next one no
    longer checks it, and with a non-empty string query sends its
    request with an empty X-Goog-Api-Key header. *)
Theorem X3_empty_key_is_reported_once
    (environ : string -> option string)
    (arguments arguments' : dict) (post post' : request -> result response)
    (query : string) :
  environ "MAPS_API_KEY" = Some "" ->
  lookup "query" arguments' = Some (VStr query) ->
  query <> "" ->
  exists req answer,
    Session.serve repr builtin_text None environ
      [("search_places", arguments, post);
       ("search_places", arguments', post')]
    = (Some "",
       [([], Return (error_content missing_key_message));
        ([req], answer)]) /\
    url req = places_url /\
    header "X-Goog-Api-Key" (headers req) = Some "".
Proof.
  intros Henv Hq Hne.
  cbn [Session.serve]. rewrite !call_tool_search_places.
  rewrite handle_search_places_absent
    by (unfold credential_absent; now rewrite Henv).
  rewrite Henv. cbn [fst snd run].
  rewrite (handle_search_places_available _ _ _ _ _ "") by now left.
  cbn [fst snd].
  destruct (search_cases repr builtin_text "" arguments')
    as [(Hf & _) | [(_ & e & message & He & _) | (_ & sq & _ & Hc)]].
  - unfold get in Hf. rewrite Hq in Hf. cbn [truthy] in Hf.
    now destruct (String.eqb_spec query "").
  - unfold get in He. rewrite Hq in He.
    unfold search_query_of, str_in, bind in He.
    destruct (contains "茅ヶ崎" query); cbn [negb] in He; [discriminate He|].
    destruct (contains "Chigasaki" query); discriminate He.
  - rewrite Hc. cbn [run]. eexists _, _. split; [reflexivity|].
    split; reflexivity.
Qed.

(** X4.  With a non-empty key in the environment it makes no difference
    to the answers whether the key has been read already: a process
    that starts with the slot empty and one that starts with the key
    in it answer every sequence of invocations alike. *)
Theorem X4_cold_and_warm_answer_alike
    (environ : string -> option string) (key : string)
    (calls : list Session.invocation) :
  environ "MAPS_API_KEY" = Some key ->
  key <> "" ->
  snd (Session.serve repr builtin_text None environ calls)
  = snd (Session.serve repr builtin_text (Some key) environ calls).
Proof.
  intros Henv Hne. induction calls as [|[[tool arguments] post] later IH];
    [reflexivity|].
  cbn [Session.serve snd]. unfold call_tool.
  destruct (String.eqb tool "search_places").
  - rewrite (handle_search_places_available _ _ None _ _ key)
      by (right; now repeat split).
    rewrite (handle_search_places_available _ _ (Some key) _ _ key)
      by now left.
    reflexivity.
  - cbn [fst snd]. now rewrite IH.
Qed.

(** X5.  A returned outcome is exactly one of the two variants, never a
    mixture: either the document is [{error: message}] and has no
    query, min_rating, count or places entry, or it is the four-entry
    success document and has no error entry. *)
Theorem X5_outcome_is_one_variant
    (MAPS_API_KEY : option string) (environ : string -> option string)
    (arguments : dict) (post : request -> result response)
    (content : list TextContent) :
  snd (run post
         (snd (handle_search_places repr builtin_text MAPS_API_KEY environ
                 arguments)))
  = Return content ->
  exists o,
    outcome_of content = Some o /\
    ((exists message,
        error_variant o message /\
        field o "query" = None /\ field o "min_rating" = None /\
        field o "count" = None /\ field o "places" = None)
     \/
     (exists query min_rating places,
        o = VDict [("query", query); ("min_rating", min_rating);
                   ("count", VInt (Z.of_nat (List.length places)));
                   ("places", VList places)] /\
        field o "error" = None)).
Proof.
  intros H.
  destruct (handler_return_cases _ _ _ _ _ H) as [[message ->] | [places ->]].
  - eexists. split; [apply outcome_of_error|].
    left. exists message. now repeat split.
  - eexists. split; [apply outcome_of_success|].
    right. eexists _, _, places. now split.
Qed.

(** The requests of an invocation: none, or the one request built from
    the available credential and the biased query. *)
Lemma request_cases
    (MAPS_API_KEY : option string) (environ : string -> option string)
    (arguments : dict) (post : request -> result response) :
  fst (run post
         (snd (handle_search_places repr builtin_text MAPS_API_KEY environ
                 arguments))) = [] \/
  exists key search_query,
    credential_available MAPS_API_KEY environ key /\
    truthy (get arguments "query" (VStr "")) = true /\
    search_query_of repr (get arguments "query" (VStr ""))
    = Return search_query /\
    fst (run post
           (snd (handle_search_places repr builtin_text MAPS_API_KEY environ
                   arguments)))
    = [post_request key search_query].
Proof.
  destruct (handle_search_places_cases repr builtin_text MAPS_API_KEY environ
              arguments) as [(_ & _ & Hh) | (key & Hk & Hh)];
    rewrite Hh; cbn [snd run fst]; [now left|].
  destruct (search_cases repr builtin_text key arguments)
    as [(_ & Hc) | [(_ & e & message & _ & Hc) | (Ht & sq & Hsq & Hc)]];
    rewrite Hc; cbn [snd run fst]; [now left | now left |].
  right. now exists key, sq.
Qed.

(** X6.  An invocation makes at most one request.  The request goes to
    the fixed Places endpoint with a 30 second timeout, carries the
    credential available to the invocation in X-Goog-Api-Key, and its
    body has two entries only: the biased query as textQuery and the
    language code ja. *)
Theorem X6_the_one_request
    (MAPS_API_KEY : option string) (environ : string -> option string)
    (arguments : dict) (post : request -> result response) :
  let reqs :=
    fst (run post
           (snd (handle_search_places repr builtin_text MAPS_API_KEY environ
                   arguments))) in
  (List.length reqs <= 1)%nat /\
  forall req, In req reqs ->
    exists key search_query,
      credential_available MAPS_API_KEY environ key /\
      search_query_of repr (get arguments "query" (VStr ""))
      = Return search_query /\
      url req = places_url /\
      timeout req = 30 # 1 /\
      header "X-Goog-Api-Key" (headers req) = Some key /\
      json req
      = VDict [("textQuery", search_query); ("languageCode", VStr "ja")].
Proof.
  intros reqs. subst reqs.
  destruct (request_cases MAPS_API_KEY environ arguments post)
    as [-> | (key & sq & Hk & _ & Hsq & ->)].
  - split; [cbn; lia | intros req []].
  - split; [cbn; lia|]. intros req [<-|[]].
    exists key, sq. now repeat split.
Qed.

(** X7.  What is sent depends on the query argument alone (and on the
    credential): the minimum rating and every other argument stay in
    the process, and the requests are fixed before the API answers.
    Two invocations in the same state whose arguments agree on the
    query make the same requests, whatever their other arguments and
    whatever the HTTP client does. *)
Theorem X7_only_the_query_is_sent
    (MAPS_API_KEY : option string) (environ : string -> option string)
    (arguments arguments' : dict) (post post' : request -> result response) :
  lookup "query" arguments = lookup "query" arguments' ->
  fst (run post
         (snd (handle_search_places repr builtin_text MAPS_API_KEY environ
                 arguments)))
  = fst (run post'
           (snd (handle_search_places repr builtin_text MAPS_API_KEY environ
                   arguments'))).
Proof.
  intros Hq.
  assert (Hg : get arguments "query" (VStr "")
               = get arguments' "query" (VStr ""))
    by (unfold get; now rewrite Hq).
  destruct (handle_search_places_cases repr builtin_text MAPS_API_KEY environ
              arguments) as [(-> & Ha & Hh) | (key & Hk & Hh)].
  - rewrite Hh, (handle_search_places_absent _ _ _ arguments' Ha).
    reflexivity.
  - rewrite Hh, (handle_search_places_available _ _ _ _ arguments' _ Hk).
    cbn [snd]. unfold search. rewrite <- Hg.
    destruct (truthy (get arguments "query" (VStr ""))); [|reflexivity].
    cbn [negb].
    destruct (search_query_of repr (get arguments "query" (VStr "")));
      reflexivity.
Qed.

(** An invocation that reaches the API and gets a 2xx answer with a
    decodable body: its result is decided by the loop over the body. *)
Lemma run_with_body
    (MAPS_API_KEY : option string) (environ : string -> option string)
    (arguments : dict) (post : request -> result response)
    (key : string) (search_query : value) (response : response)
    (places_result : value) :
  credential_available MAPS_API_KEY environ key ->
  truthy (get arguments "query" (VStr "")) = true ->
  search_query_of repr (get arguments "query" (VStr "")) = Return search_query ->
  post (post_request key search_query) = Return response ->
  200 <= status_code response <= 299 ->
  body_json response = Return places_result ->
  run post
    (snd (handle_search_places repr builtin_text MAPS_API_KEY environ
            arguments))
  = ([post_request key search_query],
     match extract_places repr
             (get arguments "min_rating" (VFloat (FFin (4 # 1))))
             places_result with
     | Return places =>
         Return (success_content (get arguments "query" (VStr ""))
                   (get arguments "min_rating" (VFloat (FFin (4 # 1))))
                   places)
     | Raise e => except_clauses builtin_text (Raise e)
     end).
Proof.
  intros Hk Ht Hsq Hpost Hst Hj.
  rewrite (handle_search_places_available _ _ _ _ _ _ Hk). cbn [snd].
  unfold search. rewrite Ht, Hsq. cbn [negb run]. rewrite Hpost.
  unfold process_response, raise_for_status. cbn [bind].
  replace (200 <=? status_code response) with true by (symmetry; lia).
  replace (status_code response <=? 299) with true by (symmetry; lia).
  cbn [andb bind]. rewrite Hj. cbn [bind].
  now destruct (extract_places repr _ places_result).
Qed.

(** X8.  The list is all or nothing.  When the API answers 2xx with an
    object whose places entry is a list, the outcome is the success
    variant exactly when every place of the list is an object whose
    rating can be compared with the minimum; one place that is not an
    object, or one rating that cannot be compared, turns the whole
    outcome into the error variant, also when earlier places had
    passed the filter. *)
Theorem X8_places_all_or_nothing
    (MAPS_API_KEY : option string) (environ : string -> option string)
    (arguments : dict) (post : request -> result response)
    (key : string) (search_query : value) (response : response)
    (body : dict) (raw : list value) :
  credential_available MAPS_API_KEY environ key ->
  truthy (get arguments "query" (VStr "")) = true ->
  search_query_of repr (get arguments "query" (VStr "")) = Return search_query ->
  post (post_request key search_query) = Return response ->
  200 <= status_code response <= 299 ->
  body_json response = Return (VDict body) ->
  lookup "places" body = Some (VList raw) ->
  let min_rating := get arguments "min_rating" (VFloat (FFin (4 # 1))) in
  exists content o,
    snd (run post
           (snd (handle_search_places repr builtin_text MAPS_API_KEY environ
                   arguments)))
    = Return content /\
    outcome_of content = Some o /\
    (success_variant o <-> comparable_places min_rating raw) /\
    (~ comparable_places min_rating raw ->
     exists message, error_variant o message).
Proof.
  intros Hk Ht Hsq Hpost Hst Hj Hraw min_rating.
  rewrite (run_with_body _ _ _ _ _ _ _ _ Hk Ht Hsq Hpost Hst Hj).
  cbn [snd]. rewrite (extract_places_list _ _ _ _ Hraw).
  fold min_rating.
  destruct (collect_places repr min_rating raw []) as [places|e] eqn:Hc.
  - assert (Hcomp : comparable_places min_rating raw).
    { apply collect_places_inv in Hc. destruct Hc as (ds & -> & Hall & _).
      now exists ds. }
    eexists _, _. split; [reflexivity|]. split; [apply outcome_of_success|].
    split; [split; [intros _; exact Hcomp | intros _; reflexivity]|].
    intros Hn. now destruct Hn.
  - assert (Hcomp : ~ comparable_places min_rating raw).
    { intros (ds & -> & Hall).
      rewrite (collect_places_total _ _ _ _ Hall) in Hc. discriminate Hc. }
    destruct (except_clauses_raise builtin_text e) as [message Hm].
    rewrite Hm. eexists _, _. split; [reflexivity|].
    split; [apply outcome_of_error|].
    split; [split; [intros Hs; discriminate Hs | intros Hc'; now destruct Hcomp]|].
    intros _. now exists message.
Qed.

(** X9.  Nothing to list is a success.  When the API answers 2xx with
    an object that has no places entry, or an empty one, the outcome is
    the success variant with count 0 and no places; the minimum rating
    is not looked at, so this holds whatever value it has. *)
Theorem X9_no_places_is_success
    (MAPS_API_KEY : option string) (environ : string -> option string)
    (arguments : dict) (post : request -> result response)
    (key : string) (search_query : value) (response : response)
    (body : dict) :
  credential_available MAPS_API_KEY environ key ->
  truthy (get arguments "query" (VStr "")) = true ->
  search_query_of repr (get arguments "query" (VStr "")) = Return search_query ->
  post (post_request key search_query) = Return response ->
  200 <= status_code response <= 299 ->
  body_json response = Return (VDict body) ->
  lookup "places" body = None \/ lookup "places" body = Some (VList []) ->
  snd (run post
         (snd (handle_search_places repr builtin_text MAPS_API_KEY environ
                 arguments)))
  = Return [mkTextContent "text"
              (json_dumps
                 (VDict [("query", get arguments "query" (VStr ""));
                         ("min_rating",
                          get arguments "min_rating" (VFloat (FFin (4 # 1))));
                         ("count", VInt 0);
                         ("places", VList [])])
                 false (Some 2))].
Proof.
  intros Hk Ht Hsq Hpost Hst Hj Hplaces.
  rewrite (run_with_body _ _ _ _ _ _ _ _ Hk Ht Hsq Hpost Hst Hj).
  cbn [snd].
  destruct Hplaces as [Hnone | Hempty].
  - unfold extract_places, str_in, has_key, bind. now rewrite Hnone.
  - now rewrite (extract_places_list _ _ _ _ Hempty).
Qed.

Lemma ge_number_inv (a b : value) (y : pyfloat) (c : bool) :
  as_number b = Some y -> ge a b = Return c ->
  exists x, as_number a = Some x /\ c = float_geb x y.
Proof.
  destruct a, b; simpl; try discriminate;
    intros [= <-] [= <-]; eexists; split; reflexivity.
Qed.

Lemma float_geb_trans (x y z : pyfloat) :
  float_geb x y = true -> float_geb y z = true -> float_geb x z = true.
Proof.
  destruct x, y, z; simpl; try discriminate; try reflexivity.
  rewrite !Qle_bool_iff. intros H1 H2. exact (Qle_trans _ _ _ H2 H1).
Qed.

Lemma credential_available_unique (MAPS_API_KEY : option string)
    (environ : string -> option string) (key key' : string) :
  credential_available MAPS_API_KEY environ key ->
  credential_available MAPS_API_KEY environ key' ->
  key = key'.
Proof.
  intros [H | (H & He & _)] [H' | (H' & He' & _)]; congruence.
Qed.

Lemma map_VDict_injective (ds ds' : list dict) :
  map VDict ds = map VDict ds' -> ds = ds'.
Proof.
  revert ds'; induction ds as [|d ds IH]; intros [|d' ds'] H;
    try discriminate H; [reflexivity|].
  injection H as -> H. f_equal. now apply IH.
Qed.

Lemma extract_places_inv (min_rating places_result : value)
    (places : list value) :
  extract_places repr min_rating places_result = Return places ->
  exists ds,
    visited places_result = Return (map VDict ds) /\
    places = map (record_of repr) (filter (passes min_rating) ds).
Proof.
  unfold extract_places, visited, bind. intros H.
  destruct (str_in "places" places_result) as [[]|e]; try discriminate H.
  - destruct (getitem places_result "places") as [raw|e]; [|discriminate H].
    destruct (iterate raw) as [todo|e]; [|discriminate H].
    apply collect_places_inv in H. destruct H as (ds & -> & _ & ->).
    now exists ds.
  - injection H as <-. now exists [].
Qed.

Lemma refilter (m1 m2 : value) (ds : list dict) :
  (forall d, passes m2 d = true -> passes m1 d = true) ->
  filter (record_passes m2) (map (record_of repr) (filter (passes m1) ds))
  = map (record_of repr) (filter (passes m2) ds).
Proof.
  intros Himp. induction ds as [|d ds IH]; [reflexivity|].
  cbn [filter].
  assert (Hrec : record_passes m2 (record_of repr d) = passes m2 d)
    by reflexivity.
  destruct (passes m1 d) eqn:H1.
  - cbn [map filter]. rewrite Hrec.
    destruct (passes m2 d); cbn [map]; now rewrite IH.
  - destruct (passes m2 d) eqn:H2; [|exact IH].
    apply Himp in H2. congruence.
Qed.

(** X10.  Raising the minimum only removes places.  For two successful
    searches of the same query against the same API answer, with
    numeric minimum ratings of which the second is at least the first,
    the places of the second outcome are those of the first outcome
    whose rating is at least the second minimum, in the same order. *)
Theorem X10_higher_minimum_refilters
    (MAPS_API_KEY : option string) (environ : string -> option string)
    (arguments arguments' : dict) (post : request -> result response)
    (reqs reqs' : list request) (content content' : list TextContent)
    (o o' : value) (m m' : pyfloat) :
  run post
    (snd (handle_search_places repr builtin_text MAPS_API_KEY environ
            arguments))
  = (reqs, Return content) ->
  outcome_of content = Some o ->
  success_variant o ->
  run post
    (snd (handle_search_places repr builtin_text MAPS_API_KEY environ
            arguments'))
  = (reqs', Return content') ->
  outcome_of content' = Some o' ->
  success_variant o' ->
  lookup "query" arguments = lookup "query" arguments' ->
  as_number (get arguments "min_rating" (VFloat (FFin (4 # 1)))) = Some m ->
  as_number (get arguments' "min_rating" (VFloat (FFin (4 # 1)))) = Some m' ->
  float_geb m' m = true ->
  exists places places',
    places_of o = Some places /\
    places_of o' = Some places' /\
    places'
    = filter
        (record_passes (get arguments' "min_rating" (VFloat (FFin (4 # 1)))))
        places.
Proof.
  intros Hrun Ho Hs Hrun' Ho' Hs' Hq Hm Hm' Hge.
  assert (Hg : get arguments "query" (VStr "")
               = get arguments' "query" (VStr ""))
    by (unfold get; now rewrite Hq).
  destruct (success_inv _ _ _ _ _ _ _ _ _ Hrun Ho Hs)
    as (key & sq & response & pr & places
        & Hk & _ & Hsq & _ & Hp & _ & Hj & Hx & ->).
  destruct (success_inv _ _ _ _ _ _ _ _ _ Hrun' Ho' Hs')
    as (key' & sq' & response' & pr' & places'
        & Hk' & _ & Hsq' & _ & Hp' & _ & Hj' & Hx' & ->).
  rewrite (credential_available_unique _ _ _ _ Hk' Hk) in Hp'.
  rewrite <- Hg, Hsq in Hsq'. injection Hsq' as <-.
  rewrite Hp in Hp'. injection Hp' as <-.
  rewrite Hj in Hj'. injection Hj' as <-.
  apply extract_places_inv in Hx, Hx'.
  destruct Hx as (ds & Hv & ->). destruct Hx' as (ds' & Hv' & ->).
  rewrite Hv in Hv'. injection Hv' as Hds.
  apply map_VDict_injective in Hds. subst ds'.
  rewrite outcome_of_success in Ho, Ho'.
  injection Ho as <-. injection Ho' as <-.
  eexists _, _. split; [reflexivity|]. split; [reflexivity|].
  symmetry. apply refilter. intros d Hd.
  apply passes_iff in Hd. apply passes_iff.
  destruct (ge_number_inv _ _ _ _ Hm' Hd) as (x & Hx & Hb).
  rewrite (ge_number _ _ _ _ Hx Hm). f_equal.
  symmetry in Hb. exact (float_geb_trans _ _ _ Hb Hge).
Qed.

Lemma listed_iff (min_rating : value) (ds : list dict) (d : dict) :
  In d ds ->
  (In (record_of repr d)
      (map (record_of repr) (filter (passes min_rating) ds))
   <-> passes min_rating d = true).
Proof.
  intros Hd. rewrite in_map_iff. split.
  - intros (d' & Heq & Hin). apply filter_In in Hin. destruct Hin as [_ Hin].
    injection Heq as _ Hr _. unfold passes in *. now rewrite <- Hr.
  - intros Hp. exists d. split; [reflexivity|]. now apply filter_In.
Qed.

(** X11.  A place without a rating counts as rated 0.  In a success
    outcome it is listed exactly when 0 >= min_rating holds, and then
    its record shows the rating 0; it is never listed under a positive
    minimum, and so never when the min_rating argument is left out. *)
Theorem X11_unrated_place_counts_as_zero
    (MAPS_API_KEY : option string) (environ : string -> option string)
    (arguments : dict) (post : request -> result response)
    (reqs : list request) (content : list TextContent) (o : value)
    (response : response) (body : dict) (raw : list value) (place : dict) :
  run post
    (snd (handle_search_places repr builtin_text MAPS_API_KEY environ
            arguments))
  = (reqs, Return content) ->
  outcome_of content = Some o ->
  success_variant o ->
  Forall (fun req => post req = Return response) reqs ->
  body_json response = Return (VDict body) ->
  lookup "places" body = Some (VList raw) ->
  In (VDict place) raw ->
  lookup "rating" place = None ->
  let min_rating := get arguments "min_rating" (VFloat (FFin (4 # 1))) in
  exists places,
    places_of o = Some places /\
    field (record_of repr place) "rating" = Some (VInt 0) /\
    (In (record_of repr place) places
     <-> ge (VInt 0) min_rating = Return true) /\
    (forall m, as_number min_rating = Some m -> float_lt (FFin 0) m ->
       ~ In (record_of repr place) places) /\
    (lookup "min_rating" arguments = None ->
     ~ In (record_of repr place) places).
Proof.
  intros Hrun Ho Hs Hpost Hbody Hraw Hin Hnone min_rating.
  destruct (success_over_places _ _ _ _ _ _ _ _ _ _ _ _
              Hrun Ho Hs Hpost Hbody Hraw) as (ds & -> & _ & Hpl).
  fold min_rating in Hpl.
  assert (Hd : In place ds).
  { apply in_map_iff in Hin. destruct Hin as (d & [= ->] & Hd). exact Hd. }
  assert (Hr : rating place = VInt 0) by (unfold rating; now rewrite Hnone).
  assert (Hiff : In (record_of repr place)
                   (map (record_of repr) (filter (passes min_rating) ds))
                 <-> ge (VInt 0) min_rating = Return true).
  { rewrite (listed_iff _ _ _ Hd), passes_iff. now rewrite Hr. }
  eexists. split; [exact Hpl|]. split.
  { change (field (record_of repr place) "rating")
      with (Some (rating place)). now rewrite Hr. }
  split; [exact Hiff|]. split.
  - intros m Hm Hlt. rewrite Hiff.
    rewrite (ge_number (VInt 0) min_rating (FFin (inject_Z 0)) m eq_refl Hm).
    assert (Hgeb : float_geb (FFin (inject_Z 0)) m = false).
    { apply float_lt_geb. exact Hlt. }
    rewrite Hgeb. discriminate.
  - intros Hdefault. rewrite Hiff. subst min_rating. unfold get.
    rewrite Hdefault. discriminate.
Qed.

(** X12.  A query that is a number or True is not searched for.  The
    substring test on it fails inside the try block, so the handler
    returns the error variant with the general search-error message,
    makes no request, and raises nothing. *)
Theorem X12_numeric_query_is_an_error
    (MAPS_API_KEY : option string) (environ : string -> option string)
    (arguments : dict) (key : string) (x : pyfloat) :
  credential_available MAPS_API_KEY environ key ->
  as_number (get arguments "query" (VStr "")) = Some x ->
  truthy (get arguments "query" (VStr "")) = true ->
  handle_search_places repr builtin_text MAPS_API_KEY environ arguments
  = (Some key,
     Done (Return
             (error_content
                ("検索中にエラーが発生しました: "
                 ++ builtin_text
                      (TypeError_not_container
                         (get arguments "query" (VStr ""))))))).
Proof.
  intros Hk Hx Ht.
  rewrite (handle_search_places_available _ _ _ _ _ _ Hk).
  unfold search. rewrite Ht. cbn [negb].
  destruct (get arguments "query" (VStr "")); try discriminate Hx;
    reflexivity.
Qed.

(** X13.  Every query that is sent names the locality, and biasing is
    idempotent.  For a string query, the textQuery of the request
    contains one of the two accepted spellings, and searching for that
    text again would send it unchanged. *)
Theorem X13_sent_query_names_the_locality
    (MAPS_API_KEY : option string) (environ : string -> option string)
    (arguments : dict) (post : request -> result response)
    (query : string) (req : request) :
  lookup "query" arguments = Some (VStr query) ->
  In req
    (fst (run post
            (snd (handle_search_places repr builtin_text MAPS_API_KEY environ
                    arguments)))) ->
  exists sent,
    field (json req) "textQuery" = Some (VStr sent) /\
    mentions_locality sent /\
    search_query_of repr (VStr sent) = Return (VStr sent).
Proof.
  intros Hq Hin.
  destruct (request_cases MAPS_API_KEY environ arguments post)
    as [Hnil | (key & sq & _ & _ & Hsq & Hreq)];
    [rewrite Hnil in Hin; destruct Hin|].
  rewrite Hreq in Hin. destruct Hin as [<-|[]].
  unfold get in Hsq. rewrite Hq in Hsq.
  unfold search_query_of, str_in, bind in Hsq |- *.
  unfold mentions_locality.
  destruct (contains "茅ヶ崎" query) eqn:Hja; cbn [negb] in Hsq.
  - injection Hsq as <-. exists query. split; [reflexivity|].
    split; [left; now apply contains_iff|]. now rewrite Hja.
  - destruct (contains "Chigasaki" query) eqn:Hen; cbn [negb] in Hsq;
      injection Hsq as <-.
    + exists query. split; [reflexivity|].
      split; [right; now apply contains_iff|]. now rewrite Hja, Hen.
    + cbn [Server.str].
      assert (Hpre : contains "茅ヶ崎" ("茅ヶ崎 " ++ query) = true).
      { apply contains_iff. now exists "", (" " ++ query). }
      exists ("茅ヶ崎 " ++ query). split; [reflexivity|].
      split; [left; now apply contains_iff|]. now rewrite Hpre.
Qed.

Lemma ge_raises :
  forall a b e, ge a b = Raise e -> from_interpreter e.
Proof.
  fix IH 1. intros a b e.
  destruct a; destruct b; simpl; try discriminate;
    try (intros [= <-]; exact I).
  revert l0. induction l as [|x l IHl]; intros [|y m]; simpl;
    try discriminate.
  destruct (eqb x y); [apply IHl | apply IH].
Qed.

Lemma collect_places_raises (min_rating : value) (todo acc : list value)
    (e : exn) :
  collect_places repr min_rating todo acc = Raise e -> from_interpreter e.
Proof.
  revert acc; induction todo as [|place todo IH]; intros acc H;
    [discriminate H|].
  cbn [collect_places] in H.
  destruct place as [ | | | | | |d];
    try (injection H as <-; exact I).
  cbn [call_get bind] in H.
  change (get d "rating" (VInt 0)) with (rating d) in H.
  destruct (ge (rating d) min_rating) as [keep|e'] eqn:Hge; cbn [bind] in H.
  - destruct keep; [|now apply IH in H].
    rewrite place_info_record in H. cbn [bind] in H. now apply IH in H.
  - injection H as <-. now apply ge_raises in Hge.
Qed.

Lemma extract_places_raises (min_rating places_result : value) (e : exn) :
  extract_places repr min_rating places_result = Raise e ->
  from_interpreter e.
Proof.
  unfold extract_places, bind. intros H.
  destruct places_result as [ | | | | s|l|d]; cbn [str_in] in H;
    try (injection H as <-; exact I).
  - destruct (contains "places" s); [|discriminate H].
    cbn [getitem] in H. injection H as <-. exact I.
  - destruct (existsb (eqb (VStr "places")) l); [|discriminate H].
    cbn [getitem] in H. injection H as <-. exact I.
  - unfold has_key, getitem in H.
    destruct (lookup "places" d) as [raw|]; [|discriminate H].
    destruct raw as [ | | | | s|l|d']; cbn [iterate] in H;
      try (injection H as <-; exact I);
      now apply collect_places_raises in H.
Qed.

(** X14.  The status decides alone whether the body is looked at.  For
    an answer whose body decoder raises no status error of its own,
    the outcome is the API-call error naming the status exactly when
    the status lies outside 200..299: 199 and 300 are reported, 200
    and 299 are not. *)
Theorem X14_status_error_iff_not_2xx
    (MAPS_API_KEY : option string) (environ : string -> option string)
    (arguments : dict) (post : request -> result response)
    (key : string) (search_query : value) (response : response) :
  credential_available MAPS_API_KEY environ key ->
  truthy (get arguments "query" (VStr "")) = true ->
  search_query_of repr (get arguments "query" (VStr "")) = Return search_query ->
  post (post_request key search_query) = Return response ->
  (forall code text, body_json response <> Raise (HTTPStatusError code text)) ->
  exists content o,
    snd (run post
           (snd (handle_search_places repr builtin_text MAPS_API_KEY environ
                   arguments)))
    = Return content /\
    outcome_of content = Some o /\
    (error_variant o
       ("API呼び出しエラー (ステータス " ++ str_of_int (status_code response)
        ++ "): " ++ body_text response)
     <-> ~ (200 <= status_code response <= 299)).
Proof.
  intros Hk Ht Hsq Hpost Hbody.
  rewrite (handle_search_places_available _ _ _ _ _ _ Hk). cbn [snd].
  unfold search. rewrite Ht, Hsq. cbn [negb run snd]. rewrite Hpost.
  unfold process_response, raise_for_status. cbn [bind].
  destruct (200 <=? status_code response) eqn:E1;
    destruct (status_code response <=? 299) eqn:E2; cbn [andb bind];
    try (eexists _, _; split; [reflexivity|];
         split; [apply outcome_of_error|];
         split; [intros _; lia | intros _; reflexivity]).
  destruct (body_json response) as [pr|e] eqn:Hj; cbn [bind].
  - destruct (extract_places repr _ pr) as [places|e] eqn:Hx; cbn [bind].
    + eexists _, _. split; [reflexivity|].
      split; [apply outcome_of_success|].
      split; [intros H; discriminate H | intros H; lia].
    + apply extract_places_raises in Hx.
      destruct e; try (now destruct Hx); cbn [except_clauses];
        (eexists _, _; split; [reflexivity|];
         split; [apply outcome_of_error|];
         split; [intros H; discriminate H | intros H; lia]).
  - destruct e as [msg|code body'|msg|a b|v|v|v|v|k];
      try (eexists _, _; split; [reflexivity|];
           split; [apply outcome_of_error|];
           split; [intros H; discriminate H | intros H; lia]).
    now destruct (Hbody code body').
Qed.

(** The only exception an invocation of the handler ends in is the
    missing-query error, whatever the HTTP client does. *)
Lemma handler_raise_cases
    (MAPS_API_KEY : option string) (environ : string -> option string)
    (arguments : dict) (post : request -> result response) (e : exn) :
  snd (run post
         (snd (handle_search_places repr builtin_text MAPS_API_KEY environ
                 arguments)))
  = Raise e ->
  e = ValueError missing_query_message.
Proof.
  intros H.
  destruct (handle_search_places_cases repr builtin_text MAPS_API_KEY environ
              arguments) as [(_ & _ & Hh) | (key & _ & Hh)];
    rewrite Hh in H; cbn [snd run] in H; [discriminate H|].
  destruct (search_cases repr builtin_text key arguments)
    as [(_ & Hc) | [(_ & e' & message & _ & Hc) | (_ & sq & _ & Hc)]];
    rewrite Hc in H; cbn [snd run] in H.
  - now injection H as <-.
  - discriminate H.
  - destruct (except_clauses_returns builtin_text
                (process_response repr (get arguments "query" (VStr ""))
                   (get arguments "min_rating" (VFloat (FFin (4 # 1))))
                   (post (post_request key sq)))) as [content Hc'].
    rewrite Hc' in H. discriminate H.
Qed.

(** X15.  The tool list and the dispatcher agree.  Run against any
    HTTP client, an invocation ends in the unknown-tool error for
    exactly the names [list_tools] does not advertise: a name that is
    not advertised raises it at once, without a request and without
    touching the key slot, and the advertised tool never ends in it,
    whatever the API answers -- the only exception it ends in is the
    missing-query error. *)
Theorem X15_advertised_iff_dispatched
    (MAPS_API_KEY : option string) (environ : string -> option string)
    (tool : string) (arguments : dict) (post : request -> result response) :
  let invocation :=
    call_tool repr builtin_text MAPS_API_KEY environ tool arguments in
  (In tool (map name list_tools)
   <-> snd (run post (snd invocation))
       <> Raise (ValueError ("未知のツール: " ++ tool))) /\
  (In tool (map name list_tools) ->
   forall e, snd (run post (snd invocation)) = Raise e ->
     e = ValueError missing_query_message) /\
  (~ In tool (map name list_tools) ->
   fst invocation = MAPS_API_KEY /\
   run post (snd invocation)
   = ([], Raise (ValueError ("未知のツール: " ++ tool)))).
Proof.
  intros invocation. subst invocation. cbn [list_tools map name].
  assert (Hother : tool <> "search_places" ->
            call_tool repr builtin_text MAPS_API_KEY environ tool arguments
            = (MAPS_API_KEY,
               Done (Raise (ValueError ("未知のツール: " ++ tool))))).
  { intros Hne. unfold call_tool.
    now destruct (String.eqb_spec tool "search_places"). }
  split; [split|split].
  - intros [<-|[]] H. rewrite call_tool_search_places in H.
    apply handler_raise_cases in H. discriminate H.
  - intros H. destruct (String.eqb_spec tool "search_places") as [->|Hne];
      [now left|].
    exfalso. apply H. now rewrite (Hother Hne).
  - intros [<-|[]] e H. rewrite call_tool_search_places in H.
    now apply handler_raise_cases in H.
  - intros Hn. rewrite Hother; [now split|].
    intros ->. apply Hn. now left.
Qed.

(** X16.  The default the tool list declares for min_rating is the one
    the handler applies: leaving the argument out gives the same state
    change, request and result as passing the schema's default. *)
Theorem X16_declared_default_is_applied
    (MAPS_API_KEY : option string) (environ : string -> option string)
    (arguments : dict) (tool : Tool) :
  In tool list_tools ->
  lookup "min_rating" arguments = None ->
  exists properties min_rating_schema default,
    field (inputSchema tool) "properties" = Some properties /\
    field properties "min_rating" = Some min_rating_schema /\
    field min_rating_schema "default" = Some default /\
    handle_search_places repr builtin_text MAPS_API_KEY environ arguments
    = handle_search_places repr builtin_text MAPS_API_KEY environ
        (("min_rating", default) :: arguments).
Proof.
  intros [<-|[]] Hnone.
  eexists _, _, _. split; [reflexivity|]. split; [reflexivity|].
  split; [reflexivity|].
  unfold handle_search_places, search, get. cbn [lookup].
  change (String.eqb "min_rating" "query") with false.
  change (String.eqb "min_rating" "min_rating") with true.
  cbv iota. now rewrite Hnone.
Qed.

End ServerProperties.

(** ** The server's answer as the client reports it *)

Section ClientProperties.
Variable repr : value -> string.
Variable builtin_text : exn -> string.
Variable format_1f : value -> result string.

(** X17.  An error variant from the handler is reported, not thrown:
    the client prints the one line carrying the handler's message,
    prints nothing else, and ends with exit status 0. *)
Theorem X17_error_variant_is_reported
    (MAPS_API_KEY : option string) (environ : string -> option string)
    (arguments : dict) (post : request -> result response)
    (content : list TextContent) (o : value) (message : string) :
  snd (run post
         (snd (handle_search_places repr builtin_text MAPS_API_KEY environ
                 arguments)))
  = Return content ->
  outcome_of content = Some o ->
  error_variant o message ->
  Report.report repr builtin_text format_1f content
  = (["❌ エラー: " ++ message], 0).
Proof.
  intros H Ho He.
  destruct (handler_return_cases _ _ _ _ _ _ _ H)
    as [[message' ->] | [places ->]].
  - rewrite outcome_of_error in Ho. injection Ho as <-.
    injection He as ->. reflexivity.
  - rewrite outcome_of_success in Ho. injection Ho as <-.
    discriminate He.
Qed.

(** X18.  The report of a success never names the locality that was
    asked for.  The handler's success document has no location entry,
    so the first line the client prints is the completion line with
    the placeholder for the area and the number of places; when there
    are no places the whole report is the fixed no-result text, with
    exit status 0. *)
Theorem X18_success_report_header
    (MAPS_API_KEY : option string) (environ : string -> option string)
    (arguments : dict) (post : request -> result response)
    (content : list TextContent) (o : value) :
  snd (run post
         (snd (handle_search_places repr builtin_text MAPS_API_KEY environ
                 arguments)))
  = Return content ->
  outcome_of content = Some o ->
  success_variant o ->
  exists places rest status,
    places_of o = Some places /\
    Report.report repr builtin_text format_1f content
    = (("✅ 検索完了: 指定地域で"
        ++ str_of_int (Z.of_nat (List.length places))
        ++ "件のスポットが見つかりました")
       :: "" :: Report.rule :: rest, status) /\
    (places = [] ->
     rest = ["😔 条件に一致するスポットが見つかりませんでした。";
             "検索条件を変更してお試しください。";
             Report.rule;
             "";
             "💡 ヒント: より詳細な情報は、Google Mapsで検索してください。"] /\
     status = 0).
Proof.
  intros H Ho Hs.
  destruct (handler_return_cases _ _ _ _ _ _ _ H)
    as [[message ->] | [places ->]].
  { now apply error_not_success in Ho. }
  rewrite outcome_of_success in Ho. injection Ho as <-.
  exists places. destruct places as [|place places].
  - eexists _, _. split; [reflexivity|]. split; [reflexivity|].
    intros _. split; reflexivity.
  - unfold Report.report, success_content. cbn [text].
    unfold Report.show.
    cbn -[Report.show_places str_of_int Z.of_nat Report.rule].
    destruct (Report.show_places repr format_1f 1 (place :: places))
      as [block [[]|e]];
      cbn -[str_of_int Z.of_nat Report.rule];
      eexists _, _; (split; [reflexivity|]); (split; [reflexivity|]);
      discriminate.
Qed.

End ClientProperties.

(** ** The further properties at concrete runs *)

Lemma X2_session_without_credential_witness :
  Session.serve Scenario.repr Scenario.builtin_text None
    Scenario.environ_without_key Cases.calls
  = (None,
     [([], Return (error_content missing_key_message));
      ([], Raise (ValueError "未知のツール: search_hotels"))]).
Proof.
  rewrite (X2_session_without_credential Scenario.repr Scenario.builtin_text
             Scenario.environ_without_key Cases.calls).
  - reflexivity.
  - reflexivity.
Defined.

Lemma X3_empty_key_is_reported_once_witness :
  exists req answer,
    Session.serve Scenario.repr Scenario.builtin_text None
      Cases.environ_empty_key
      [("search_places", Scenario.arguments, Scenario.post_ok);
       ("search_places", Scenario.arguments, Scenario.post_ok)]
    = (Some "",
       [([], Return (error_content missing_key_message));
        ([req], answer)]) /\
    url req = places_url /\
    header "X-Goog-Api-Key" (headers req) = Some "".
Proof.
  apply (X3_empty_key_is_reported_once Scenario.repr Scenario.builtin_text
           Cases.environ_empty_key Scenario.arguments Scenario.arguments
           Scenario.post_ok Scenario.post_ok "ramen").
  - reflexivity.
  - reflexivity.
  - discriminate.
Defined.

Lemma X4_cold_and_warm_answer_alike_witness :
  snd (Session.serve Scenario.repr Scenario.builtin_text None
         Scenario.environ_with_key Cases.calls)
  = snd (Session.serve Scenario.repr Scenario.builtin_text (Some "test-key")
           Scenario.environ_with_key Cases.calls).
Proof.
  apply (X4_cold_and_warm_answer_alike Scenario.repr Scenario.builtin_text
           Scenario.environ_with_key "test-key" Cases.calls).
  - reflexivity.
  - discriminate.
Defined.

Lemma X5_outcome_is_one_variant_witness :
  exists o,
    outcome_of Scenario.content = Some o /\
    ((exists message,
        error_variant o message /\
        field o "query" = None /\ field o "min_rating" = None /\
        field o "count" = None /\ field o "places" = None)
     \/
     (exists query min_rating places,
        o = VDict [("query", query); ("min_rating", min_rating);
                   ("count", VInt (Z.of_nat (List.length places)));
                   ("places", VList places)] /\
        field o "error" = None)).
Proof.
  apply (X5_outcome_is_one_variant Scenario.repr Scenario.builtin_text None
           Scenario.environ_with_key Scenario.arguments Scenario.post_ok
           Scenario.content).
  vm_compute. reflexivity.
Defined.

Lemma X7_only_the_query_is_sent_witness :
  fst (run Scenario.post_ok
         (snd (handle_search_places Scenario.repr Scenario.builtin_text None
                 Scenario.environ_with_key Scenario.arguments)))
  = fst (run Scenario.post_403
           (snd (handle_search_places Scenario.repr Scenario.builtin_text None
                   Scenario.environ_with_key Cases.arguments_45))).
Proof.
  apply (X7_only_the_query_is_sent Scenario.repr Scenario.builtin_text None
           Scenario.environ_with_key Scenario.arguments Cases.arguments_45
           Scenario.post_ok Scenario.post_403).
  reflexivity.
Defined.

Lemma X8_places_all_or_nothing_witness :
  exists content o,
    snd (run Scenario.post_ok
           (snd (handle_search_places Scenario.repr Scenario.builtin_text None
                   Scenario.environ_with_key Scenario.arguments)))
    = Return content /\
    outcome_of content = Some o /\
    (success_variant o
     <-> comparable_places (VFloat (FFin (4 # 1))) Scenario.raw).
Proof.
  destruct (X8_places_all_or_nothing Scenario.repr Scenario.builtin_text None
              Scenario.environ_with_key Scenario.arguments Scenario.post_ok
              "test-key" (VStr "茅ヶ崎 ramen") Scenario.response_ok
              Scenario.body Scenario.raw)
    as (content & o & H1 & H2 & H3 & _).
  - right. repeat split. discriminate.
  - reflexivity.
  - vm_compute. reflexivity.
  - reflexivity.
  - cbn. lia.
  - reflexivity.
  - reflexivity.
  - exists content, o. repeat split; try assumption; apply H3.
Defined.

Lemma X9_no_places_is_success_witness :
  snd (run Cases.post_empty
         (snd (handle_search_places Scenario.repr Scenario.builtin_text None
                 Scenario.environ_with_key Scenario.arguments)))
  = Return [mkTextContent "text"
              (json_dumps
                 (VDict [("query", VStr "ramen");
                         ("min_rating", VFloat (FFin (4 # 1)));
                         ("count", VInt 0);
                         ("places", VList [])])
                 false (Some 2))].
Proof.
  apply (X9_no_places_is_success Scenario.repr Scenario.builtin_text None
           Scenario.environ_with_key Scenario.arguments Cases.post_empty
           "test-key" (VStr "茅ヶ崎 ramen") Cases.response_empty []).
  - right. repeat split. discriminate.
  - reflexivity.
  - vm_compute. reflexivity.
  - reflexivity.
  - cbn. lia.
  - reflexivity.
  - now left.
Defined.

Lemma X10_higher_minimum_refilters_witness :
  exists places places',
    places_of Scenario.outcome = Some places /\
    places_of Cases.outcome_45 = Some places' /\
    places' = filter (record_passes (VFloat (FFin (45 # 10)))) places.
Proof.
  apply (X10_higher_minimum_refilters Scenario.repr Scenario.builtin_text None
           Scenario.environ_with_key Scenario.arguments Cases.arguments_45
           Scenario.post_ok [Scenario.sent] [Scenario.sent]
           Scenario.content Cases.content_45
           Scenario.outcome Cases.outcome_45
           (FFin (4 # 1)) (FFin (45 # 10))).
  - vm_compute. reflexivity.
  - reflexivity.
  - reflexivity.
  - vm_compute. reflexivity.
  - reflexivity.
  - reflexivity.
  - reflexivity.
  - reflexivity.
  - reflexivity.
  - reflexivity.
Defined.

Lemma X11_unrated_place_counts_as_zero_witness :
  exists places,
    places_of Scenario.outcome = Some places /\
    ~ In (record_of Scenario.repr Cases.place_unrated) places.
Proof.
  destruct (X11_unrated_place_counts_as_zero Scenario.repr
              Scenario.builtin_text None Scenario.environ_with_key
              Scenario.arguments Cases.post_unrated [Scenario.sent]
              Scenario.content Scenario.outcome Cases.response_unrated
              Cases.body_unrated Cases.raw_unrated Cases.place_unrated)
    as (places & H1 & _ & _ & H2 & _).
  - vm_compute. reflexivity.
  - reflexivity.
  - reflexivity.
  - repeat constructor.
  - reflexivity.
  - reflexivity.
  - now left.
  - reflexivity.
  - exists places. split; [exact H1|].
    apply (H2 (FFin (4 # 1))); reflexivity.
Defined.

Lemma X12_numeric_query_is_an_error_witness :
  handle_search_places Scenario.repr Scenario.builtin_text None
    Scenario.environ_with_key Cases.arguments_numeric
  = (Some "test-key",
     Done (Return (error_content "検索中にエラーが発生しました: <builtin>"))).
Proof.
  apply (X12_numeric_query_is_an_error Scenario.repr Scenario.builtin_text
           None Scenario.environ_with_key Cases.arguments_numeric "test-key"
           (FFin (5 # 1))).
  - right. repeat split. discriminate.
  - reflexivity.
  - reflexivity.
Defined.

Lemma X13_sent_query_names_the_locality_witness :
  exists sent,
    field (json Scenario.sent) "textQuery" = Some (VStr sent) /\
    mentions_locality sent /\
    search_query_of Scenario.repr (VStr sent) = Return (VStr sent).
Proof.
  apply (X13_sent_query_names_the_locality Scenario.repr
           Scenario.builtin_text None Scenario.environ_with_key
           Scenario.arguments Scenario.post_ok "ramen" Scenario.sent).
  - reflexivity.
  - vm_compute. now left.
Defined.

Lemma X14_status_error_iff_not_2xx_witness :
  exists content o,
    snd (run Scenario.post_403
           (snd (handle_search_places Scenario.repr Scenario.builtin_text None
                   Scenario.environ_with_key Scenario.arguments)))
    = Return content /\
    outcome_of content = Some o /\
    (error_variant o "API呼び出しエラー (ステータス 403): forbidden"
     <-> ~ (200 <= 403 <= 299)).
Proof.
  apply (X14_status_error_iff_not_2xx Scenario.repr Scenario.builtin_text None
           Scenario.environ_with_key Scenario.arguments Scenario.post_403
           "test-key" (VStr "茅ヶ崎 ramen") Scenario.response_403).
  - right. repeat split. discriminate.
  - reflexivity.
  - vm_compute. reflexivity.
  - reflexivity.
  - discriminate.
Defined.

Lemma X16_declared_default_is_applied_witness :
  exists properties min_rating_schema default,
    field (inputSchema Cases.advertised) "properties" = Some properties /\
    field properties "min_rating" = Some min_rating_schema /\
    field min_rating_schema "default" = Some default /\
    handle_search_places Scenario.repr Scenario.builtin_text None
      Scenario.environ_with_key Cases.arguments_default
    = handle_search_places Scenario.repr Scenario.builtin_text None
        Scenario.environ_with_key
        (("min_rating", default) :: Cases.arguments_default).
Proof.
  apply (X16_declared_default_is_applied Scenario.repr Scenario.builtin_text
           None Scenario.environ_with_key Cases.arguments_default
           Cases.advertised).
  - now left.
  - reflexivity.
Defined.

Lemma X17_error_variant_is_reported_witness :
  Report.report Scenario.repr Scenario.builtin_text Cases.format_1f
    Cases.content_403
  = (["❌ エラー: API呼び出しエラー (ステータス 403): forbidden"], 0).
Proof.
  apply (X17_error_variant_is_reported Scenario.repr Scenario.builtin_text
           Cases.format_1f None Scenario.environ_with_key Scenario.arguments
           Scenario.post_403 Cases.content_403
           (VDict [("error",
                    VStr "API呼び出しエラー (ステータス 403): forbidden")])
           "API呼び出しエラー (ステータス 403): forbidden").
  - vm_compute. reflexivity.
  - reflexivity.
  - reflexivity.
Defined.

Lemma X18_success_report_header_witness :
  exists places rest status,
    places_of Scenario.outcome = Some places /\
    Report.report Scenario.repr Scenario.builtin_text Cases.format_1f
      Scenario.content
    = (("✅ 検索完了: 指定地域で"
        ++ str_of_int (Z.of_nat (List.length places))
        ++ "件のスポットが見つかりました")
       :: "" :: Report.rule :: rest, status).
Proof.
  destruct (X18_success_report_header Scenario.repr Scenario.builtin_text
              Cases.format_1f None Scenario.environ_with_key
              Scenario.arguments Scenario.post_ok Scenario.content
              Scenario.outcome)
    as (places & rest & status & H1 & H2 & _).
  - vm_compute. reflexivity.
  - reflexivity.
  - reflexivity.
  - now exists places, rest, status.
Defined.
